(** * pq.c : a command-line manager for POSIX message queues

    A shallow embedding of [pq.c] and the verification of its
    error-handling and output behaviour.

    The program is a sequence of system calls whose results decide the
    control flow.  The kernel and the C library are not part of the
    program: they are represented by a [World], which fixes what every call
    returns and which value [errno] holds afterwards.  The program itself is
    written in a state monad over [OS]: the value of [errno], the trace of
    the calls made so far, and the contents written to [stdout] and
    [stderr]. *)

From Stdlib Require Import ZArith List String Ascii Bool Lia.
From Stdlib Require Import Decimal DecimalString.
Import ListNotations.

#[local] Open Scope string_scope.
#[local] Open Scope Z_scope.

(** ** Constants of the system headers (Linux values) *)

Module Libc.

Definition EEXIST : Z := 17.
Definition EBUSY : Z := 16.
Definition ENOENT : Z := 2.
Definition EPERM : Z := 1.
Definition EINVAL : Z := 22.

Definition DT_DIR : Z := 4.
Definition DT_REG : Z := 8.
Definition O_RDONLY : Z := 0.

Definition INT_MAX : Z := 2147483647.
Definition INT_MIN : Z := -2147483648.

(** The value of an [int] computation: two's complement on 32 bits. *)
Definition wrap_int (z : Z) : Z :=
  (z - INT_MIN) mod 4294967296 + INT_MIN.

Definition nl : string := String (ascii_of_nat 10) EmptyString.

(** [%ld] conversion of [fprintf]. *)
Definition fmt_ld (z : Z) : string := NilZero.string_of_int (Z.to_int z).

(** [struct dirent], the two fields the program reads. *)
Record dirent := mkDirent { d_type : Z; d_name : string }.

(** [struct mq_attr], the four fields the program reads (all [long]). *)
Record mq_attr := mkAttr
  { mq_flags : Z; mq_maxmsg : Z; mq_msgsize : Z; mq_curmsgs : Z }.

(** [s[0]] of a NUL-terminated string: the terminator when [s] is empty. *)
Definition first_char (s : string) : ascii :=
  match s with
  | EmptyString => Ascii.zero
  | String c _ => c
  end.

End Libc.
Import Libc.

(** ** The environment: results of system calls *)

(** What a call returns and the value of [errno] after it.  After a call
    that succeeds the value of [errno] is unspecified: the environment may
    give any. *)
Record sysret := mkRet { rv : Z; en : Z }.

(** Every call is made at most once in a run ([readdir] apart, whose
    successive results are the list [w_opendir] gives), so the results can be
    fixed in advance, per call and argument. *)
Record World := mkWorld
  { strerror : Z -> string;
    w_mkdir : string -> Z -> sysret;
    w_mount : string -> string -> string -> Z -> sysret;
    w_umount : string -> sysret;
    w_rmdir : string -> sysret;
    (** [None]: [opendir] returns NULL; [Some l]: the entries [readdir]
        yields, in order, before it returns NULL. *)
    w_opendir : string -> option (list dirent);
    w_closedir : sysret;
    w_mq_open : string -> Z -> sysret;
    w_mq_getattr : Z -> sysret * mq_attr;
    w_mq_close : Z -> sysret;
    w_mq_unlink : string -> sysret }.

(** ** Observable state of a run *)

Inductive event : Type :=
| EMkdir (path : string) (mode : Z) (res : Z)
| EMount (source target fstype : string) (flags : Z) (res : Z)
| EUmount (target : string) (res : Z)
| ERmdir (path : string) (res : Z)
| EOpendir (path : string) (opened : bool)
| EReaddir (ent : option dirent)
| EClosedir (res : Z)
| EMqOpen (name : string) (oflag : Z) (res : Z)
| EMqGetattr (mqd : Z) (res : Z)
| EMqClose (mqd : Z) (res : Z)
| EMqUnlink (name : string) (res : Z).

Record OS := mkOS
  { errno : Z;
    trace : list event;     (* calls made so far, oldest first *)
    out : string;           (* what was written to stdout *)
    err : string }.         (* what was written to stderr *)

Definition boot : OS :=
  {| errno := 0; trace := []; out := ""; err := "" |}.

(** ** The monad of the program *)

Definition M (A : Type) : Type := OS -> A * OS.

Definition ret {A} (a : A) : M A := fun s => (a, s).

Definition bind {A B} (m : M A) (k : A -> M B) : M B :=
  fun s => let (a, s') := m s in k a s'.

Declare Scope pq_scope.
Delimit Scope pq_scope with pq.
Notation "x <- m ;; k" := (bind m (fun x => k))
  (at level 100, m at next level, right associativity) : pq_scope.
Notation "' p <- m ;; k" := (bind m (fun x => match x with p => k end))
  (at level 100, p pattern, m at next level, right associativity) : pq_scope.
Notation "m ;; k" := (bind m (fun _ => k))
  (at level 100, right associativity) : pq_scope.
#[local] Open Scope pq_scope.

Definition get_errno : M Z := fun s => (errno s, s).

(** A call: log it, set [errno], hand back the returned value. *)
Definition syscall (ev : Z -> event) (r : sysret) : M Z :=
  fun s => (rv r,
            {| errno := en r; trace := (trace s ++ [ev (rv r)])%list;
               out := out s; err := err s |}).

Definition log (ev : event) : M unit :=
  fun s => (tt, {| errno := errno s; trace := (trace s ++ [ev])%list;
                   out := out s; err := err s |}).

Inductive FILE := stdout | stderr.

(** [fprintf] with the conversions already applied to the format. *)
Definition fprintf (f : FILE) (text : string) : M unit :=
  fun s => (tt,
            match f with
            | stdout => {| errno := errno s; trace := trace s;
                           out := out s ++ text; err := err s |}
            | stderr => {| errno := errno s; trace := trace s;
                           out := out s; err := err s ++ text |}
            end).

(** C truth value of an [int]. *)
Definition nonzero (z : Z) : bool := negb (z =? 0).

(** ** The program *)

Definition MOUNT_POINT : string := "/dev/mqueue".

Section Program.

Variable w : World.

Definition mkdir (path : string) (mode : Z) : M Z :=
  syscall (EMkdir path mode) (w_mkdir w path mode).
Definition mount (source target fstype : string) (flags : Z) : M Z :=
  syscall (EMount source target fstype flags)
          (w_mount w source target fstype flags).
Definition umount (target : string) : M Z :=
  syscall (EUmount target) (w_umount w target).
Definition rmdir (path : string) : M Z :=
  syscall (ERmdir path) (w_rmdir w path).
Definition mq_open (name : string) (oflag : Z) : M Z :=
  syscall (EMqOpen name oflag) (w_mq_open w name oflag).
Definition mq_getattr (mqd : Z) : M (Z * mq_attr) :=
  res <- syscall (EMqGetattr mqd) (fst (w_mq_getattr w mqd)) ;;
  ret (res, snd (w_mq_getattr w mqd)).
Definition mq_close (mqd : Z) : M Z :=
  syscall (EMqClose mqd) (w_mq_close w mqd).
Definition mq_unlink (name : string) : M Z :=
  syscall (EMqUnlink name) (w_mq_unlink w name).

(** [opendir]: the stream is the list of entries still to be read. *)
Definition opendir (path : string) : M (option (list dirent)) :=
  log (EOpendir path (match w_opendir w path with
                      | Some _ => true
                      | None => false
                      end)) ;;
  ret (w_opendir w path).

Definition closedir : M Z := syscall EClosedir (w_closedir w).

Definition ensurePosixQueueFileSystemMounted : M bool :=
  res <- mkdir MOUNT_POINT 420 (* 0644 *) ;;
  e <- get_errno ;;
  if nonzero res && negb (e =? EEXIST) then
    fprintf stderr
      ("Error: Couldn't create posix filesystem mount point "
         ++ MOUNT_POINT ++ " (" ++ strerror w e ++ ")" ++ nl) ;;
    ret false
  else
    res <- mount "none" MOUNT_POINT "mqueue" 0 ;;
    e <- get_errno ;;
    if nonzero res && negb (e =? EBUSY) then
      fprintf stderr
        ("Error: Couldn't mount the posix queue filesystem ("
           ++ strerror w e ++ ")" ++ nl) ;;
      ret false
    else
      ret true.

Definition unmountPosixQueue : M bool :=
  res <- umount MOUNT_POINT ;;
  e <- get_errno ;;
  if nonzero res && (e =? EBUSY) then
    fprintf stderr
      ("Error: Couldn't unmount the posix queue filesystem ("
         ++ strerror w e ++ ")" ++ nl) ;;
    ret false
  else
    res <- rmdir MOUNT_POINT ;;
    e <- get_errno ;;
    if nonzero res && negb (e =? EBUSY) then
      fprintf stderr
        ("Error: Couldn't remove posix filesystem mount point "
           ++ MOUNT_POINT ++ " (" ++ strerror w e ++ ")" ++ nl) ;;
      ret false
    else
      ret true.

(** The [while ((ent = readdir(d)) != NULL)] loop of [listPosixQueues]:
    one iteration per entry of the stream, [count] being an [int]. *)
Fixpoint readdir_loop (d : list dirent) (count : Z) : M Z :=
  match d with
  | [] => log (EReaddir None) ;; ret count
  | ent :: d' =>
      log (EReaddir (Some ent)) ;;
      if (d_type ent =? DT_DIR)
         || Ascii.eqb (first_char (d_name ent)) "."%char then
        readdir_loop d' count
      else
        fprintf stdout (d_name ent ++ nl) ;;
        readdir_loop d' (wrap_int (count + 1))
  end.

Definition listPosixQueues : M bool :=
  d <- opendir MOUNT_POINT ;;
  match d with
  | None =>
      fprintf stderr
        ("Error: Couldn't read from the posix queue filesystem" ++ nl) ;;
      ret false
  | Some d =>
      count <- readdir_loop d 0 ;;
      (if count =? 0 then fprintf stdout ("(No posix queues)" ++ nl)
       else ret tt) ;;
      closedir ;;
      ret true
  end.

Definition printPosixQueueInfo (queue_name : string) : M bool :=
  queue_fd <- mq_open queue_name O_RDONLY ;;
  if queue_fd <? 0 then
    e <- get_errno ;;
    fprintf stderr
      ("Error: Couldn't open queue " ++ queue_name
         ++ " (" ++ strerror w e ++ ")" ++ nl) ;;
    ret false
  else
    '(res, attr) <- mq_getattr queue_fd ;;
    if nonzero res then
      e <- get_errno ;;
      fprintf stderr
        ("Error: Failed to query queue " ++ queue_name
           ++ " for its parameters (" ++ strerror w e ++ ")" ++ nl) ;;
      mq_close queue_fd ;;
      ret false
    else
      fprintf stdout
        ("flags   " ++ fmt_ld (mq_flags attr) ++ nl
         ++ "maxmsg  " ++ fmt_ld (mq_maxmsg attr) ++ nl
         ++ "msgsize " ++ fmt_ld (mq_msgsize attr) ++ nl
         ++ "curmsgs " ++ fmt_ld (mq_curmsgs attr) ++ nl) ;;
      mq_close queue_fd ;;
      ret true.

Definition unlinkPosixQueue (queue_name : string) : M bool :=
  res <- mq_unlink queue_name ;;
  if nonzero res then
    e <- get_errno ;;
    fprintf stderr
      ("Error: Failed unlink queue " ++ queue_name
         ++ " (" ++ strerror w e ++ ")" ++ nl) ;;
    ret false
  else
    ret true.

Definition usage (stream : FILE) (progname : string) : M unit :=
  fprintf stream
    ("Usage: $ sudo " ++ progname
       ++ " { ls | stat /<queue-name> | unlink /<queue-name> | umount }"
       ++ nl).

(** [argc] is the length of [argv], [argv[i]] its [i]-th element, and
    [!strcmp(a, b)] is equality of strings. *)
Definition main (argv : list string) : M Z :=
  let argc := Z.of_nat (List.length argv) in
  if argc <? 2 then
    let progname := if 0 <? argc then nth 0 argv "" else "pq" in
    fprintf stderr ("Error: Invalid usage" ++ nl) ;;
    usage stderr progname ;;
    ret (-1)
  else
    mounted <- ensurePosixQueueFileSystemMounted ;;
    if negb mounted then ret (-1)
    else if (nth 1 argv "" =? "ls")%string then
      ok <- listPosixQueues ;;
      ret (if ok then 0 else -1)
    else if (nth 1 argv "" =? "umount")%string then
      ok <- unmountPosixQueue ;;
      ret (if ok then 0 else -1)
    else if (nth 1 argv "" =? "stat")%string then
      if argc <? 3 then
        let progname := if 0 <? argc then nth 0 argv "" else "pq" in
        fprintf stderr ("Error: Invalid usage" ++ nl) ;;
        usage stderr progname ;;
        ret (-1)
      else
        let queue_name := nth 2 argv "" in
        ok <- printPosixQueueInfo queue_name ;;
        ret (if ok then 0 else -1)
    else if (nth 1 argv "" =? "unlink")%string then
      if argc <? 3 then
        let progname := if 0 <? argc then nth 0 argv "" else "pq" in
        fprintf stderr ("Error: Invalid usage" ++ nl) ;;
        usage stderr progname ;;
        ret (-1)
      else
        let queue_name := nth 2 argv "" in
        ok <- unlinkPosixQueue queue_name ;;
        ret (if ok then 0 else -1)
    else
      fprintf stderr
        ("Error: Invalid action " ++ String (ascii_of_nat 34) (nth 1 argv "")
           ++ String (ascii_of_nat 34) nl) ;;
      ret (-1).

End Program.

(** A whole run of the program, from a fresh process. *)
Definition run (w : World) (argv : list string) : Z * OS := main w argv boot.

Definition exit_code (r : Z * OS) : Z := fst r.
Definition final (r : Z * OS) : OS := snd r.

(** ** Sample environments *)

Module Sample.

Definition ok : sysret := {| rv := 0; en := 0 |}.
Definition fail (e : Z) : sysret := {| rv := -1; en := e |}.

Definition strerror_linux (e : Z) : string :=
  if e =? EPERM then "Operation not permitted"
  else if e =? ENOENT then "No such file or directory"
  else if e =? 12 then "Cannot allocate memory"
  else if e =? EBUSY then "Device or resource busy"
  else if e =? EEXIST then "File exists"
  else if e =? EINVAL then "Invalid argument"
  else "Unknown error".

Definition entries : list dirent :=
  [ {| d_type := DT_DIR; d_name := "." |};
    {| d_type := DT_DIR; d_name := ".." |};
    {| d_type := DT_REG; d_name := "jobs" |};
    {| d_type := DT_REG; d_name := ".hidden" |};
    {| d_type := DT_DIR; d_name := "sub" |};
    {| d_type := DT_REG; d_name := "mail" |} ].

Definition attr0 : mq_attr :=
  {| mq_flags := 0; mq_maxmsg := 10; mq_msgsize := 1024; mq_curmsgs := 0 |}.

(** The file system is mounted already and holds two queues; every other
    call succeeds. *)
Definition mounted : World :=
  {| strerror := strerror_linux;
     w_mkdir := fun _ _ => fail EEXIST;
     w_mount := fun _ _ _ _ => fail EBUSY;
     w_umount := fun _ => ok;
     w_rmdir := fun _ => ok;
     w_opendir := fun _ => Some entries;
     w_closedir := ok;
     w_mq_open := fun _ _ => {| rv := 3; en := 0 |};
     w_mq_getattr := fun _ => (ok, attr0);
     w_mq_close := fun _ => ok;
     w_mq_unlink := fun _ => ok |}.

Definition ENOMEM : Z := 12.

Definition with_mkdir (r : sysret) (w : World) : World :=
  {| strerror := strerror w; w_mkdir := fun _ _ => r; w_mount := w_mount w;
     w_umount := w_umount w; w_rmdir := w_rmdir w;
     w_opendir := w_opendir w; w_closedir := w_closedir w;
     w_mq_open := w_mq_open w; w_mq_getattr := w_mq_getattr w;
     w_mq_close := w_mq_close w; w_mq_unlink := w_mq_unlink w |}.

Definition with_mount (r : sysret) (w : World) : World :=
  {| strerror := strerror w; w_mkdir := w_mkdir w;
     w_mount := fun _ _ _ _ => r;
     w_umount := w_umount w; w_rmdir := w_rmdir w;
     w_opendir := w_opendir w; w_closedir := w_closedir w;
     w_mq_open := w_mq_open w; w_mq_getattr := w_mq_getattr w;
     w_mq_close := w_mq_close w; w_mq_unlink := w_mq_unlink w |}.

Definition with_umount (um rm : sysret) (w : World) : World :=
  {| strerror := strerror w; w_mkdir := w_mkdir w; w_mount := w_mount w;
     w_umount := fun _ => um; w_rmdir := fun _ => rm;
     w_opendir := w_opendir w; w_closedir := w_closedir w;
     w_mq_open := w_mq_open w; w_mq_getattr := w_mq_getattr w;
     w_mq_close := w_mq_close w; w_mq_unlink := w_mq_unlink w |}.

Definition with_opendir (d : option (list dirent)) (w : World) : World :=
  {| strerror := strerror w; w_mkdir := w_mkdir w; w_mount := w_mount w;
     w_umount := w_umount w; w_rmdir := w_rmdir w;
     w_opendir := fun _ => d; w_closedir := w_closedir w;
     w_mq_open := w_mq_open w; w_mq_getattr := w_mq_getattr w;
     w_mq_close := w_mq_close w; w_mq_unlink := w_mq_unlink w |}.

Definition with_mq_open (r : sysret) (w : World) : World :=
  {| strerror := strerror w; w_mkdir := w_mkdir w; w_mount := w_mount w;
     w_umount := w_umount w; w_rmdir := w_rmdir w;
     w_opendir := w_opendir w; w_closedir := w_closedir w;
     w_mq_open := fun _ _ => r; w_mq_getattr := w_mq_getattr w;
     w_mq_close := w_mq_close w; w_mq_unlink := w_mq_unlink w |}.

Definition with_mq_getattr (r : sysret) (w : World) : World :=
  {| strerror := strerror w; w_mkdir := w_mkdir w; w_mount := w_mount w;
     w_umount := w_umount w; w_rmdir := w_rmdir w;
     w_opendir := w_opendir w; w_closedir := w_closedir w;
     w_mq_open := w_mq_open w;
     w_mq_getattr := fun fd => (r, snd (w_mq_getattr w fd));
     w_mq_close := w_mq_close w; w_mq_unlink := w_mq_unlink w |}.

(** The file system is in use: [umount] fails with [EBUSY]. *)
Definition busy : World := with_umount (fail EBUSY) ok mounted.

(** [umount] fails for lack of memory; the directory, still a mount
    point, cannot be removed. *)
Definition umount_enomem : World :=
  with_umount (fail ENOMEM) (fail EBUSY) mounted.

(** No privilege: the directory cannot be created. *)
Definition mkdir_denied : World := with_mkdir (fail EPERM) mounted.

(** No privilege: the directory is there, mounting is refused. *)
Definition mount_denied : World := with_mount (fail EPERM) mounted.

(** The queue asked for does not exist. *)
Definition no_queue : World := with_mq_open (fail ENOENT) mounted.

(** The queue opens, the query of its attributes fails. *)
Definition getattr_fails : World := with_mq_getattr (fail EINVAL) mounted.

(** No queue at all: the directory holds [.] and [..] only. *)
Definition empty_dir : World :=
  with_opendir (Some [ {| d_type := DT_DIR; d_name := "." |};
                       {| d_type := DT_DIR; d_name := ".." |} ]) mounted.

End Sample.

(** * Vocabulary of the statements *)

(** The three outcomes of a call that returns 0 on success and sets
    [errno] on failure, relative to one tolerated error code. *)
Definition succeeded (r : sysret) : Prop := rv r = 0.
Definition failed_with (r : sysret) (e : Z) : Prop := rv r <> 0 /\ en r = e.
Definition failed_other (r : sysret) (e : Z) : Prop := rv r <> 0 /\ en r <> e.

(** The calls of [ensurePosixQueueFileSystemMounted] and
    [unmountPosixQueue], with the arguments the program passes. *)
Definition the_mkdir (w : World) : sysret := w_mkdir w MOUNT_POINT 420.
Definition the_mount (w : World) : sysret :=
  w_mount w "none" MOUNT_POINT "mqueue" 0.
Definition the_umount (w : World) : sysret := w_umount w MOUNT_POINT.
Definition the_rmdir (w : World) : sysret := w_rmdir w MOUNT_POINT.

Definition ev_mkdir (w : World) : event :=
  EMkdir MOUNT_POINT 420 (rv (the_mkdir w)).
Definition ev_mount (w : World) : event :=
  EMount "none" MOUNT_POINT "mqueue" 0 (rv (the_mount w)).
Definition ev_umount (w : World) : event :=
  EUmount MOUNT_POINT (rv (the_umount w)).
Definition ev_rmdir (w : World) : event :=
  ERmdir MOUNT_POINT (rv (the_rmdir w)).

(** Which calls change the system, and which work on a queue. *)
Definition os_mutation (e : event) : bool :=
  match e with
  | EMkdir _ _ _ | EMount _ _ _ _ _ | EUmount _ _ | ERmdir _ _
  | EMqUnlink _ _ => true
  | _ => false
  end.

Definition queue_operation (e : event) : bool :=
  match e with
  | EMqOpen _ _ _ | EMqGetattr _ _ | EMqClose _ _ | EMqUnlink _ _ => true
  | _ => false
  end.

Definition is_rmdir (e : event) : bool :=
  match e with
  | ERmdir _ _ => true
  | _ => false
  end.

Definition is_mount (e : event) : bool :=
  match e with
  | EMount _ _ _ _ _ => true
  | _ => false
  end.

Definition mkdir_diagnostic (w : World) : string :=
  "Error: Couldn't create posix filesystem mount point /dev/mqueue ("
    ++ strerror w (en (the_mkdir w)) ++ ")" ++ nl.

Definition mount_diagnostic (w : World) : string :=
  "Error: Couldn't mount the posix queue filesystem ("
    ++ strerror w (en (the_mount w)) ++ ")" ++ nl.

Definition umount_diagnostic (w : World) : string :=
  "Error: Couldn't unmount the posix queue filesystem ("
    ++ strerror w (en (the_umount w)) ++ ")" ++ nl.

Definition rmdir_diagnostic (w : World) : string :=
  "Error: Couldn't remove posix filesystem mount point /dev/mqueue ("
    ++ strerror w (en (the_rmdir w)) ++ ")" ++ nl.

Definition usage_text (progname : string) : string :=
  "Error: Invalid usage" ++ nl
    ++ "Usage: $ sudo " ++ progname
    ++ " { ls | stat /<queue-name> | unlink /<queue-name> | umount }" ++ nl.

Definition unknown_text (action : string) : string :=
  "Error: Invalid action " ++ String (ascii_of_nat 34) action
    ++ String (ascii_of_nat 34) nl.

Definition the_mq_open (w : World) (name : string) : sysret :=
  w_mq_open w name O_RDONLY.
Definition the_mq_getattr (w : World) (name : string) : sysret * mq_attr :=
  w_mq_getattr w (rv (the_mq_open w name)).
Definition the_mq_close (w : World) (name : string) : sysret :=
  w_mq_close w (rv (the_mq_open w name)).

Definition ev_mq_open (w : World) (name : string) : event :=
  EMqOpen name O_RDONLY (rv (the_mq_open w name)).
Definition ev_mq_getattr (w : World) (name : string) : event :=
  EMqGetattr (rv (the_mq_open w name)) (rv (fst (the_mq_getattr w name))).
Definition ev_mq_close (w : World) (name : string) : event :=
  EMqClose (rv (the_mq_open w name)) (rv (the_mq_close w name)).

Definition open_diagnostic (w : World) (name : string) : string :=
  "Error: Couldn't open queue " ++ name
    ++ " (" ++ strerror w (en (the_mq_open w name)) ++ ")" ++ nl.

Definition query_diagnostic (w : World) (name : string) : string :=
  "Error: Failed to query queue " ++ name ++ " for its parameters ("
    ++ strerror w (en (fst (the_mq_getattr w name))) ++ ")" ++ nl.

(** The text of [n] lines, each closed by a newline. *)
Definition unlines (ls : list string) : string :=
  fold_right (fun l rest => l ++ nl ++ rest)%string "" ls.

(** The four lines of the report, in order, without their newlines. *)
Definition report_lines (a : mq_attr) : list string :=
  [ "flags   " ++ fmt_ld (mq_flags a);
    "maxmsg  " ++ fmt_ld (mq_maxmsg a);
    "msgsize " ++ fmt_ld (mq_msgsize a);
    "curmsgs " ++ fmt_ld (mq_curmsgs a) ]%string.

Definition newline : ascii := ascii_of_nat 10.

(** [s] holds no newline. *)
Fixpoint one_line (s : string) : bool :=
  match s with
  | EmptyString => true
  | String c s' => negb (Ascii.eqb c newline) && one_line s'
  end.

(** The lines of a text, cut at the newlines. *)
Fixpoint lines (s : string) : list string :=
  match s with
  | EmptyString => []
  | String c s' =>
      if Ascii.eqb c newline then EmptyString :: lines s'
      else match lines s' with
           | [] => [String c EmptyString]
           | l :: ls => String c l :: ls
           end
  end.

Fixpoint remove_first (fd : Z) (held : list Z) : list Z :=
  match held with
  | [] => []
  | x :: rest => if x =? fd then rest else x :: remove_first fd rest
  end.

(** Effect of one call on the descriptors held: [mq_open] that returns a
    descriptor (not negative, as [printPosixQueueInfo] tests it) adds it,
    [mq_close] gives it back. *)
Definition track (held : list Z) (e : event) : list Z :=
  match e with
  | EMqOpen _ _ fd => if 0 <=? fd then fd :: held else held
  | EMqClose fd _ => remove_first fd held
  | _ => held
  end.

(** The descriptors still open at the end of a trace. *)
Definition open_handles (t : list event) : list Z := fold_left track t [].

Definition with_mq_close (c : Z -> sysret) (w : World) : World :=
  {| strerror := strerror w; w_mkdir := w_mkdir w; w_mount := w_mount w;
     w_umount := w_umount w; w_rmdir := w_rmdir w;
     w_opendir := w_opendir w; w_closedir := w_closedir w;
     w_mq_open := w_mq_open w; w_mq_getattr := w_mq_getattr w;
     w_mq_close := c; w_mq_unlink := w_mq_unlink w |}.

(** The entries that stand for queues: not a directory, and a name that
    does not begin with a dot. *)
Definition listed (ent : dirent) : bool :=
  negb (d_type ent =? DT_DIR) && negb (prefix "." (d_name ent)).

Definition placeholder : string := "(No posix queues)" ++ nl.

Definition unlink_diagnostic (w : World) (name : string) : string :=
  "Error: Failed unlink queue " ++ name
    ++ " (" ++ strerror w (en (w_mq_unlink w name)) ++ ")" ++ nl.


(** ** The calls of a run, read off the environment *)

(** The test [res && errno != tolerated] of the program. *)
Definition fatal (r : sysret) (tolerated : Z) : bool :=
  nonzero (rv r) && negb (en r =? tolerated).

(** The mount step goes through: neither [mkdir] nor [mount] fails
    fatally. *)
Definition mount_ok (w : World) : bool :=
  negb (fatal (the_mkdir w) EEXIST) && negb (fatal (the_mount w) EBUSY).

Definition ensure_calls (w : World) : list event :=
  if fatal (the_mkdir w) EEXIST then [ev_mkdir w]
  else [ev_mkdir w; ev_mount w].

Definition unmount_calls (w : World) : list event :=
  if nonzero (rv (the_umount w)) && (en (the_umount w) =? EBUSY)
  then [ev_umount w]
  else [ev_umount w; ev_rmdir w].

Definition list_calls (w : World) : list event :=
  match w_opendir w MOUNT_POINT with
  | None => [EOpendir MOUNT_POINT false]
  | Some entries =>
      EOpendir MOUNT_POINT true
        :: map (fun ent => EReaddir (Some ent)) entries
        ++ [EReaddir None; EClosedir (rv (w_closedir w))]
  end.

Definition stat_calls (w : World) (name : string) : list event :=
  if rv (the_mq_open w name) <? 0 then [ev_mq_open w name]
  else [ev_mq_open w name; ev_mq_getattr w name; ev_mq_close w name].

Definition unlink_calls (w : World) (name : string) : list event :=
  [EMqUnlink name (rv (w_mq_unlink w name))].

(** What the command of [argv] calls once the mount step went through. *)
Definition command_calls (w : World) (argv : list string) : list event :=
  if (nth 1 argv "" =? "ls")%string then list_calls w
  else if (nth 1 argv "" =? "umount")%string then unmount_calls w
  else if (nth 1 argv "" =? "stat")%string then
    if (3 <=? List.length argv)%nat then stat_calls w (nth 2 argv "") else []
  else if (nth 1 argv "" =? "unlink")%string then
    if (3 <=? List.length argv)%nat then unlink_calls w (nth 2 argv "") else []
  else [].

Definition run_calls (w : World) (argv : list string) : list event :=
  if (List.length argv <? 2)%nat then []
  else if mount_ok w then ensure_calls w ++ command_calls w argv
  else ensure_calls w.

Definition is_mkdir (e : event) : bool :=
  match e with
  | EMkdir _ _ _ => true
  | _ => false
  end.

(** The calls that take something away: a queue, the mount, the
    directory. *)
Definition is_unlink (e : event) : bool :=
  match e with
  | EMqUnlink _ _ => true
  | _ => false
  end.

Definition is_umount (e : event) : bool :=
  match e with
  | EUmount _ _ => true
  | _ => false
  end.

(** The mount step goes through, in the words of the outcomes. *)
Definition mount_tolerated (w : World) : Prop :=
  (succeeded (the_mkdir w) \/ failed_with (the_mkdir w) EEXIST)
  /\ (succeeded (the_mount w) \/ failed_with (the_mount w) EBUSY).

(** ** More sample environments *)

Module Scenario.

Definition with_mq_unlink (r : sysret) (w : World) : World :=
  {| strerror := strerror w; w_mkdir := w_mkdir w; w_mount := w_mount w;
     w_umount := w_umount w; w_rmdir := w_rmdir w;
     w_opendir := w_opendir w; w_closedir := w_closedir w;
     w_mq_open := w_mq_open w; w_mq_getattr := w_mq_getattr w;
     w_mq_close := w_mq_close w; w_mq_unlink := fun _ => r |}.

(** The queue to delete does not exist. *)
Definition queue_gone : World :=
  with_mq_unlink (Sample.fail ENOENT) Sample.mounted.

(** The mount point cannot be read. *)
Definition unreadable : World := Sample.with_opendir None Sample.mounted.

(** Nothing is there yet: the directory is created, the file system
    mounted. *)
Definition fresh : World :=
  Sample.with_mkdir Sample.ok (Sample.with_mount Sample.ok Sample.mounted).

End Scenario.

(** * Verification *)

(** ** Basic facts *)

Lemma outcome_cases (r : sysret) (e : Z) :
  succeeded r \/ failed_with r e \/ failed_other r e.
Proof.
  unfold succeeded, failed_with, failed_other.
  destruct (Z.eq_dec (rv r) 0); destruct (Z.eq_dec (en r) e); auto.
Qed.

Lemma fatal_test_true (r : sysret) (e : Z) :
  failed_other r e -> nonzero (rv r) && negb (en r =? e) = true.
Proof.
  intros [Hr He]. unfold nonzero.
  apply Z.eqb_neq in Hr. apply Z.eqb_neq in He. now rewrite Hr, He.
Qed.

Lemma fatal_test_false (r : sysret) (e : Z) :
  succeeded r \/ failed_with r e -> nonzero (rv r) && negb (en r =? e) = false.
Proof.
  unfold succeeded, failed_with, nonzero. intros [H | [_ H]].
  - now rewrite H.
  - rewrite H, Z.eqb_refl. apply andb_false_r.
Qed.

Lemma busy_test_true (r : sysret) (e : Z) :
  failed_with r e -> nonzero (rv r) && (en r =? e) = true.
Proof.
  intros [Hr He]. unfold nonzero.
  apply Z.eqb_neq in Hr. rewrite Hr, He, Z.eqb_refl. reflexivity.
Qed.

Lemma busy_test_false (r : sysret) (e : Z) :
  succeeded r \/ failed_other r e -> nonzero (rv r) && (en r =? e) = false.
Proof.
  unfold succeeded, failed_other, nonzero. intros [H | [_ H]].
  - now rewrite H.
  - apply Z.eqb_neq in H. rewrite H. apply andb_false_r.
Qed.

Lemma append_nil_r (a : string) : (a ++ "")%string = a.
Proof. induction a as [| c a IH]; simpl; [reflexivity | now rewrite IH]. Qed.

Lemma append_assoc (a b c : string) :
  ((a ++ b) ++ c)%string = (a ++ (b ++ c))%string.
Proof. induction a as [| x a IH]; simpl; [reflexivity | now rewrite IH]. Qed.

Lemma append_nonempty (a b : string) : b <> "" -> (a ++ b)%string <> "".
Proof.
  intros Hb. destruct a; simpl; [assumption | discriminate].
Qed.

Ltac unfold_calls :=
  unfold mkdir, mount, umount, rmdir, mq_open, mq_getattr, mq_close,
    mq_unlink, opendir, closedir, usage, syscall, log, get_errno, fprintf,
    bind, ret;
  simpl.

(** ** EnsureMounted *)

Lemma ensure_mkdir_fatal (w : World) (s : OS) :
  failed_other (the_mkdir w) EEXIST ->
  ensurePosixQueueFileSystemMounted w s =
    (false, {| errno := en (the_mkdir w);
               trace := trace s ++ [ev_mkdir w];
               out := out s;
               err := err s ++ mkdir_diagnostic w |}).
Proof.
  intros H. apply fatal_test_true in H.
  unfold ensurePosixQueueFileSystemMounted. unfold_calls.
  fold (the_mkdir w). rewrite H. reflexivity.
Qed.

Lemma ensure_mount_fatal (w : World) (s : OS) :
  succeeded (the_mkdir w) \/ failed_with (the_mkdir w) EEXIST ->
  failed_other (the_mount w) EBUSY ->
  ensurePosixQueueFileSystemMounted w s =
    (false, {| errno := en (the_mount w);
               trace := trace s ++ [ev_mkdir w; ev_mount w];
               out := out s;
               err := err s ++ mount_diagnostic w |}).
Proof.
  intros H1 H2. apply fatal_test_false in H1. apply fatal_test_true in H2.
  unfold ensurePosixQueueFileSystemMounted. unfold_calls.
  fold (the_mkdir w). rewrite H1. simpl.
  fold (the_mount w). rewrite H2. simpl.
  rewrite <- app_assoc. reflexivity.
Qed.

Lemma ensure_ok (w : World) (s : OS) :
  succeeded (the_mkdir w) \/ failed_with (the_mkdir w) EEXIST ->
  succeeded (the_mount w) \/ failed_with (the_mount w) EBUSY ->
  ensurePosixQueueFileSystemMounted w s =
    (true, {| errno := en (the_mount w);
              trace := trace s ++ [ev_mkdir w; ev_mount w];
              out := out s;
              err := err s |}).
Proof.
  intros H1 H2. apply fatal_test_false in H1. apply fatal_test_false in H2.
  unfold ensurePosixQueueFileSystemMounted. unfold_calls.
  fold (the_mkdir w). rewrite H1. simpl.
  fold (the_mount w). rewrite H2. simpl.
  rewrite <- app_assoc. reflexivity.
Qed.

(** C4.  [ensurePosixQueueFileSystemMounted] returns [true] exactly when
    [mkdir] succeeded or failed with [EEXIST], and [mount] succeeded or
    failed with [EBUSY].  Any other failure of [mkdir] is reported on
    [stderr] with its reason and returns [false] with [mkdir] as the only
    call made (no [mount]); any other failure of [mount] is reported with its
    reason and returns [false]. *)
Theorem C4_ensure_mounted_exactly (w : World) (s : OS) :
  (fst (ensurePosixQueueFileSystemMounted w s) = true <->
     (succeeded (the_mkdir w) \/ failed_with (the_mkdir w) EEXIST) /\
     (succeeded (the_mount w) \/ failed_with (the_mount w) EBUSY))
  /\ (failed_other (the_mkdir w) EEXIST ->
        fst (ensurePosixQueueFileSystemMounted w s) = false
        /\ err (snd (ensurePosixQueueFileSystemMounted w s))
           = (err s ++ mkdir_diagnostic w)%string
        /\ trace (snd (ensurePosixQueueFileSystemMounted w s))
           = (trace s ++ [ev_mkdir w])%list
        /\ existsb is_mount
             (trace (snd (ensurePosixQueueFileSystemMounted w s)))
           = existsb is_mount (trace s))
  /\ (succeeded (the_mkdir w) \/ failed_with (the_mkdir w) EEXIST ->
      failed_other (the_mount w) EBUSY ->
        fst (ensurePosixQueueFileSystemMounted w s) = false
        /\ err (snd (ensurePosixQueueFileSystemMounted w s))
           = (err s ++ mount_diagnostic w)%string
        /\ trace (snd (ensurePosixQueueFileSystemMounted w s))
           = (trace s ++ [ev_mkdir w; ev_mount w])%list).
Proof.
  split; [| split].
  - assert (Hno : forall r e, failed_other r e ->
                     ~ (succeeded r \/ failed_with r e)).
    { intros r e [Hn Hn'] [Hs | [_ He]]; contradiction. }
    destruct (outcome_cases (the_mkdir w) EEXIST) as [Hk | [Hk | Hk]].
    3: { rewrite ensure_mkdir_fatal by assumption. simpl.
         split; [discriminate | intros [Hc _]; now apply Hno in Hk]. }
    all: destruct (outcome_cases (the_mount w) EBUSY) as [Ht | [Ht | Ht]].
    all: try (rewrite ensure_ok by auto; simpl; split; auto).
    all: rewrite ensure_mount_fatal by auto; simpl.
    all: split; [discriminate | intros [_ Hc]; now apply Hno in Ht].
  - intros Hk. rewrite ensure_mkdir_fatal by assumption. simpl.
    repeat split.
    rewrite existsb_app. simpl. now rewrite !orb_false_r.
  - intros Hk Ht. rewrite ensure_mount_fatal by assumption. simpl.
    repeat split.
Qed.

(** Already mounted: [true].  Mounting refused: [false]. *)
Lemma C4_ensure_mounted_witness :
  fst (ensurePosixQueueFileSystemMounted Sample.mounted boot) = true
  /\ fst (ensurePosixQueueFileSystemMounted Sample.mount_denied boot) = false.
Proof.
  split.
  - apply (proj1 (C4_ensure_mounted_exactly Sample.mounted boot)).
    split; right; (split; [discriminate | reflexivity]).
  - apply (proj2 (proj2 (C4_ensure_mounted_exactly Sample.mount_denied boot))).
    + right; split; [discriminate | reflexivity].
    + split; discriminate.
Defined.

(** ** Unmount *)

Lemma unmount_busy (w : World) (s : OS) :
  failed_with (the_umount w) EBUSY ->
  unmountPosixQueue w s =
    (false, {| errno := en (the_umount w);
               trace := trace s ++ [ev_umount w];
               out := out s;
               err := err s ++ umount_diagnostic w |}).
Proof.
  intros H. apply busy_test_true in H.
  unfold unmountPosixQueue. unfold_calls.
  fold (the_umount w). rewrite H. reflexivity.
Qed.

Lemma unmount_rmdir_fatal (w : World) (s : OS) :
  succeeded (the_umount w) \/ failed_other (the_umount w) EBUSY ->
  failed_other (the_rmdir w) EBUSY ->
  unmountPosixQueue w s =
    (false, {| errno := en (the_rmdir w);
               trace := trace s ++ [ev_umount w; ev_rmdir w];
               out := out s;
               err := err s ++ rmdir_diagnostic w |}).
Proof.
  intros H1 H2. apply busy_test_false in H1. apply fatal_test_true in H2.
  unfold unmountPosixQueue. unfold_calls.
  fold (the_umount w). rewrite H1. simpl.
  fold (the_rmdir w). rewrite H2. simpl.
  rewrite <- app_assoc. reflexivity.
Qed.

Lemma unmount_done (w : World) (s : OS) :
  succeeded (the_umount w) \/ failed_other (the_umount w) EBUSY ->
  succeeded (the_rmdir w) \/ failed_with (the_rmdir w) EBUSY ->
  unmountPosixQueue w s =
    (true, {| errno := en (the_rmdir w);
              trace := trace s ++ [ev_umount w; ev_rmdir w];
              out := out s;
              err := err s |}).
Proof.
  intros H1 H2. apply busy_test_false in H1. apply fatal_test_false in H2.
  unfold unmountPosixQueue. unfold_calls.
  fold (the_umount w). rewrite H1. simpl.
  fold (the_rmdir w). rewrite H2. simpl.
  rewrite <- app_assoc. reflexivity.
Qed.

(** ** The dispatcher *)

Lemma argc_short (argv : list string) :
  (List.length argv < 2)%nat -> (Z.of_nat (List.length argv) <? 2) = true.
Proof. intros H. apply Z.ltb_lt. lia. Qed.

Lemma argc_two (argv : list string) :
  (2 <= List.length argv)%nat -> (Z.of_nat (List.length argv) <? 2) = false.
Proof. intros H. apply Z.ltb_ge. lia. Qed.

Lemma argc_three (argv : list string) :
  (3 <= List.length argv)%nat -> (Z.of_nat (List.length argv) <? 3) = false.
Proof. intros H. apply Z.ltb_ge. lia. Qed.

Lemma argc_only_two (argv : list string) :
  List.length argv = 2%nat -> (Z.of_nat (List.length argv) <? 3) = true.
Proof. intros H. apply Z.ltb_lt. lia. Qed.

Lemma progname_of (argv : list string) :
  (if 0 <? Z.of_nat (List.length argv) then nth 0 argv "" else "pq")
  = hd "pq" argv.
Proof. destruct argv; reflexivity. Qed.

(** Fewer than two arguments: nothing but the usage message. *)
Lemma main_no_command (w : World) (argv : list string) (s : OS) :
  (List.length argv < 2)%nat ->
  main w argv s =
    (-1, {| errno := errno s; trace := trace s; out := out s;
            err := err s ++ usage_text (hd "pq" argv) |}).
Proof.
  intros H. unfold main. rewrite (argc_short _ H), progname_of.
  unfold_calls. unfold usage_text. now rewrite !append_assoc.
Qed.

(** Two arguments or more: the mount comes first, whatever the command. *)
Lemma main_not_mounted (w : World) (argv : list string) (s : OS) :
  (2 <= List.length argv)%nat ->
  fst (ensurePosixQueueFileSystemMounted w s) = false ->
  main w argv s = (-1, snd (ensurePosixQueueFileSystemMounted w s)).
Proof.
  intros H Hm. unfold main. rewrite (argc_two argv H). unfold bind.
  destruct (ensurePosixQueueFileSystemMounted w s) as [m s1].
  simpl in Hm. subst m. reflexivity.
Qed.

Ltac enter_main H Hm :=
  unfold main; rewrite (argc_two _ H); unfold bind at 1;
  destruct (ensurePosixQueueFileSystemMounted _ _) as [?m ?s1];
  simpl in Hm; subst; cbn [negb snd fst].

Lemma main_ls (w : World) (argv : list string) (s : OS) :
  (2 <= List.length argv)%nat ->
  fst (ensurePosixQueueFileSystemMounted w s) = true ->
  nth 1 argv "" = "ls" ->
  main w argv s =
    ((if fst (listPosixQueues w (snd (ensurePosixQueueFileSystemMounted w s)))
      then 0 else -1),
     snd (listPosixQueues w (snd (ensurePosixQueueFileSystemMounted w s)))).
Proof.
  intros H Hm Hc. enter_main H Hm. rewrite Hc. cbn [String.eqb Ascii.eqb
    Bool.eqb]. unfold bind, ret.
  destruct (listPosixQueues w s1) as [ok s2]. reflexivity.
Qed.

Lemma main_umount (w : World) (argv : list string) (s : OS) :
  (2 <= List.length argv)%nat ->
  fst (ensurePosixQueueFileSystemMounted w s) = true ->
  nth 1 argv "" = "umount" ->
  main w argv s =
    ((if fst (unmountPosixQueue w (snd (ensurePosixQueueFileSystemMounted w s)))
      then 0 else -1),
     snd (unmountPosixQueue w (snd (ensurePosixQueueFileSystemMounted w s)))).
Proof.
  intros H Hm Hc. enter_main H Hm. rewrite Hc. cbn [String.eqb Ascii.eqb
    Bool.eqb]. unfold bind, ret.
  destruct (unmountPosixQueue w s1) as [ok s2]. reflexivity.
Qed.

Lemma main_stat (w : World) (argv : list string) (s : OS) :
  (3 <= List.length argv)%nat ->
  fst (ensurePosixQueueFileSystemMounted w s) = true ->
  nth 1 argv "" = "stat" ->
  main w argv s =
    ((if fst (printPosixQueueInfo w (nth 2 argv "")
                (snd (ensurePosixQueueFileSystemMounted w s)))
      then 0 else -1),
     snd (printPosixQueueInfo w (nth 2 argv "")
            (snd (ensurePosixQueueFileSystemMounted w s)))).
Proof.
  intros H Hm Hc. assert (H2 : (2 <= List.length argv)%nat) by lia.
  enter_main H2 Hm. rewrite Hc. cbn [String.eqb Ascii.eqb Bool.eqb].
  rewrite (argc_three argv H).
  unfold bind, ret.
  destruct (printPosixQueueInfo w (nth 2 argv "") s1) as [ok s2].
  reflexivity.
Qed.

Lemma main_unlink (w : World) (argv : list string) (s : OS) :
  (3 <= List.length argv)%nat ->
  fst (ensurePosixQueueFileSystemMounted w s) = true ->
  nth 1 argv "" = "unlink" ->
  main w argv s =
    ((if fst (unlinkPosixQueue w (nth 2 argv "")
                (snd (ensurePosixQueueFileSystemMounted w s)))
      then 0 else -1),
     snd (unlinkPosixQueue w (nth 2 argv "")
            (snd (ensurePosixQueueFileSystemMounted w s)))).
Proof.
  intros H Hm Hc. assert (H2 : (2 <= List.length argv)%nat) by lia.
  enter_main H2 Hm. rewrite Hc. cbn [String.eqb Ascii.eqb Bool.eqb].
  rewrite (argc_three argv H).
  unfold bind, ret.
  destruct (unlinkPosixQueue w (nth 2 argv "") s1) as [ok s2].
  reflexivity.
Qed.

(** [stat] or [unlink] without a queue name: the usage message, after the
    mount. *)
Lemma main_missing_name (w : World) (argv : list string) (s : OS) :
  List.length argv = 2%nat ->
  fst (ensurePosixQueueFileSystemMounted w s) = true ->
  nth 1 argv "" = "stat" \/ nth 1 argv "" = "unlink" ->
  main w argv s =
    (-1, {| errno := errno (snd (ensurePosixQueueFileSystemMounted w s));
            trace := trace (snd (ensurePosixQueueFileSystemMounted w s));
            out := out (snd (ensurePosixQueueFileSystemMounted w s));
            err := err (snd (ensurePosixQueueFileSystemMounted w s))
                     ++ usage_text (hd "pq" argv) |}).
Proof.
  intros H Hm Hc. assert (H2 : (2 <= List.length argv)%nat) by lia.
  enter_main H2 Hm.
  destruct Hc as [Hc | Hc]; rewrite Hc; cbn [String.eqb Ascii.eqb Bool.eqb];
    rewrite (argc_only_two argv H), progname_of;
    unfold_calls; unfold usage_text; now rewrite !append_assoc.
Qed.

Lemma main_unknown (w : World) (argv : list string) (s : OS) :
  (2 <= List.length argv)%nat ->
  fst (ensurePosixQueueFileSystemMounted w s) = true ->
  nth 1 argv "" <> "ls" -> nth 1 argv "" <> "umount" ->
  nth 1 argv "" <> "stat" -> nth 1 argv "" <> "unlink" ->
  main w argv s =
    (-1, {| errno := errno (snd (ensurePosixQueueFileSystemMounted w s));
            trace := trace (snd (ensurePosixQueueFileSystemMounted w s));
            out := out (snd (ensurePosixQueueFileSystemMounted w s));
            err := err (snd (ensurePosixQueueFileSystemMounted w s))
                     ++ unknown_text (nth 1 argv "") |}).
Proof.
  intros H Hm H1 H2 H3 H4. enter_main H Hm.
  apply String.eqb_neq in H1, H2, H3, H4. rewrite H1, H2, H3, H4.
  unfold_calls. reflexivity.
Qed.

(** The three ways [ensurePosixQueueFileSystemMounted] can go. *)
Lemma ensure_cases (w : World) (s : OS) :
  (fst (ensurePosixQueueFileSystemMounted w s) = false
   /\ snd (ensurePosixQueueFileSystemMounted w s)
      = {| errno := en (the_mkdir w); trace := trace s ++ [ev_mkdir w];
           out := out s; err := err s ++ mkdir_diagnostic w |})
  \/ (fst (ensurePosixQueueFileSystemMounted w s) = false
      /\ snd (ensurePosixQueueFileSystemMounted w s)
         = {| errno := en (the_mount w);
              trace := trace s ++ [ev_mkdir w; ev_mount w];
              out := out s; err := err s ++ mount_diagnostic w |})
  \/ (fst (ensurePosixQueueFileSystemMounted w s) = true
      /\ snd (ensurePosixQueueFileSystemMounted w s)
         = {| errno := en (the_mount w);
              trace := trace s ++ [ev_mkdir w; ev_mount w];
              out := out s; err := err s |}).
Proof.
  destruct (outcome_cases (the_mkdir w) EEXIST) as [Hk | [Hk | Hk]].
  3: { left. now rewrite ensure_mkdir_fatal. }
  all: destruct (outcome_cases (the_mount w) EBUSY) as [Ht | [Ht | Ht]].
  all: first [ right; right; rewrite ensure_ok by auto; now split
             | right; left; rewrite ensure_mount_fatal by auto; now split ].
Qed.

Lemma ensure_out (w : World) (s : OS) :
  out (snd (ensurePosixQueueFileSystemMounted w s)) = out s.
Proof.
  destruct (ensure_cases w s) as [[_ E] | [[_ E] | [_ E]]]; now rewrite E.
Qed.

Lemma ensure_quiet (w : World) (s : OS) :
  fst (ensurePosixQueueFileSystemMounted w s) = true ->
  err (snd (ensurePosixQueueFileSystemMounted w s)) = err s.
Proof.
  destruct (ensure_cases w s) as [[F E] | [[F E] | [_ E]]];
    rewrite ?F, E; [discriminate | discriminate | reflexivity].
Qed.

(** The calls of [ensurePosixQueueFileSystemMounted] are [mkdir] and
    [mount], so none of them satisfies a test both of these fail. *)
Lemma ensure_trace_free (w : World) (s : OS) (p : event -> bool) :
  (forall a b c, p (EMkdir a b c) = false) ->
  (forall a b c d e, p (EMount a b c d e) = false) ->
  existsb p (trace (snd (ensurePosixQueueFileSystemMounted w s)))
  = existsb p (trace s).
Proof.
  intros Hk Ht.
  destruct (ensure_cases w s) as [[_ E] | [[_ E] | [_ E]]]; rewrite E; simpl;
    rewrite existsb_app; simpl; unfold ev_mkdir, ev_mount;
    rewrite ?Hk, ?Ht; simpl; apply orb_false_r.
Qed.

(** C1 (as the code has it).  When [umount] fails with [EBUSY], the failure
    is fatal: [unmountPosixQueue] reports it on [stderr] with its reason and
    returns [false], making [umount] its only call (no [rmdir], the
    mount-point directory stays), and the [umount] subcommand exits with -1,
    no [rmdir] having been attempted in the run. *)
Theorem C1_umount_busy_is_fatal (w : World) (s : OS) (argv : list string) :
  failed_with (the_umount w) EBUSY ->
  (2 <= List.length argv)%nat ->
  nth 1 argv "" = "umount" ->
  (fst (unmountPosixQueue w s) = false
   /\ err (snd (unmountPosixQueue w s)) = (err s ++ umount_diagnostic w)%string
   /\ out (snd (unmountPosixQueue w s)) = out s
   /\ trace (snd (unmountPosixQueue w s)) = (trace s ++ [ev_umount w])%list)
  /\ exit_code (run w argv) = -1
  /\ existsb is_rmdir (trace (final (run w argv))) = false.
Proof.
  intros Hb Hn Hc. split.
  - rewrite unmount_busy by assumption. simpl. repeat split.
  - unfold run, exit_code, final.
    destruct (ensurePosixQueueFileSystemMounted w boot) as [m s1] eqn:E.
    assert (Hfree : existsb is_rmdir (trace s1) = false).
    { change s1 with (snd (true, s1)).
      replace (snd (true, s1))
        with (snd (ensurePosixQueueFileSystemMounted w boot))
        by now rewrite E.
      now rewrite ensure_trace_free. }
    destruct m.
    + rewrite main_umount by (try rewrite E; auto). rewrite E. simpl.
      rewrite unmount_busy by assumption. simpl. split; [reflexivity |].
      rewrite existsb_app, Hfree. reflexivity.
    + rewrite main_not_mounted by (try rewrite E; auto). rewrite E. simpl.
      split; [reflexivity | assumption].
Qed.

(** The file system in use: exit status -1 and no [rmdir]. *)
Lemma C1_umount_busy_witness :
  exit_code (run Sample.busy ["pq"; "umount"]) = -1
  /\ existsb is_rmdir (trace (final (run Sample.busy ["pq"; "umount"]))) = false.
Proof.
  apply (C1_umount_busy_is_fatal Sample.busy boot ["pq"; "umount"]).
  - split; [discriminate | reflexivity].
  - simpl; lia.
  - reflexivity.
Defined.

(** C1 as stated fails: with the file system busy, [unmountPosixQueue] does
    not return [true] and the [umount] subcommand does not exit with 0. *)
Lemma C1_counterexample :
  failed_with (the_umount Sample.busy) EBUSY
  /\ ~ (fst (unmountPosixQueue Sample.busy boot) = true
        /\ exit_code (run Sample.busy ["pq"; "umount"]) = 0
        /\ existsb is_rmdir
             (trace (final (run Sample.busy ["pq"; "umount"]))) = false).
Proof.
  split.
  - split; [discriminate | reflexivity].
  - intros [H _]. vm_compute in H. discriminate H.
Qed.

(** C2 (what the code does).  [umount] fails for lack of memory, a reason
    other than [EBUSY]: [rmdir] is attempted all the same, its [EBUSY] is
    tolerated, nothing is reported and the [umount] subcommand exits
    with 0. *)
Theorem C2_umount_failure_passed_over :
  failed_other (the_umount Sample.umount_enomem) EBUSY
  /\ run Sample.umount_enomem ["pq"; "umount"]
     = (0, {| errno := EBUSY;
              trace := [ EMkdir "/dev/mqueue" 420 (-1);
                         EMount "none" "/dev/mqueue" "mqueue" 0 (-1);
                         EUmount "/dev/mqueue" (-1);
                         ERmdir "/dev/mqueue" (-1) ];
              out := "";
              err := "" |}).
Proof.
  split.
  - split; discriminate.
  - unfold run.
    rewrite main_umount; [| simpl; lia | reflexivity | reflexivity].
    rewrite ensure_ok by (right; split; [discriminate | reflexivity]).
    cbn [snd]. rewrite unmount_done.
    + reflexivity.
    + right; split; discriminate.
    + right; split; [discriminate | reflexivity].
Qed.

(** In general: a failure of [umount] other than [EBUSY] leaves the result
    of [unmountPosixQueue] to [rmdir] alone. *)
Lemma unmount_other_failure (w : World) (s : OS) :
  failed_other (the_umount w) EBUSY ->
  trace (snd (unmountPosixQueue w s))
  = (trace s ++ [ev_umount w; ev_rmdir w])%list
  /\ (fst (unmountPosixQueue w s) = true <->
      succeeded (the_rmdir w) \/ failed_with (the_rmdir w) EBUSY).
Proof.
  intros Hu.
  destruct (outcome_cases (the_rmdir w) EBUSY) as [Hr | [Hr | Hr]].
  - rewrite unmount_done by auto. simpl. tauto.
  - rewrite unmount_done by auto. simpl. tauto.
  - rewrite unmount_rmdir_fatal by auto. simpl. split; [reflexivity |].
    split; [discriminate |].
    destruct Hr as [Hn Hn']. intros [Hs | [_ He]]; contradiction.
Qed.

(** ** Usage errors *)

(** C3 (as the code has it).  With no command, the program prints the usage
    message on [stderr] and exits with -1 without making any call.  With
    [stat] or [unlink] and no queue name, [ensurePosixQueueFileSystemMounted]
    runs first: the calls of the run are its calls ([mkdir], and [mount]
    unless [mkdir] failed fatally), no queue operation is made, nothing is
    written to [stdout], the exit status is -1, and [stderr] holds the usage
    message when the mount step succeeded and its diagnostic otherwise. *)
Theorem C3_usage_errors (w : World) :
  (forall argv : list string,
      (List.length argv < 2)%nat ->
      run w argv = (-1, {| errno := 0; trace := []; out := "";
                           err := usage_text (hd "pq" argv) |}))
  /\ (forall prog cmd : string,
         cmd = "stat" \/ cmd = "unlink" ->
         exit_code (run w [prog; cmd]) = -1
         /\ out (final (run w [prog; cmd])) = ""
         /\ trace (final (run w [prog; cmd]))
            = trace (snd (ensurePosixQueueFileSystemMounted w boot))
         /\ existsb queue_operation (trace (final (run w [prog; cmd]))) = false
         /\ (fst (ensurePosixQueueFileSystemMounted w boot) = true ->
             err (final (run w [prog; cmd])) = usage_text prog)
         /\ (fst (ensurePosixQueueFileSystemMounted w boot) = false ->
             err (final (run w [prog; cmd]))
             = err (snd (ensurePosixQueueFileSystemMounted w boot)))).
Proof.
  split.
  - intros argv H. unfold run. now rewrite main_no_command.
  - intros prog cmd Hc. unfold run, exit_code, final.
    assert (Hq : existsb queue_operation
                   (trace (snd (ensurePosixQueueFileSystemMounted w boot)))
                 = false)
      by now rewrite ensure_trace_free.
    pose proof (ensure_out w boot) as Ho.
    destruct (fst (ensurePosixQueueFileSystemMounted w boot)) eqn:Hm.
    + rewrite main_missing_name by auto. simpl.
      rewrite (ensure_quiet w boot Hm). simpl.
      repeat split; auto. discriminate.
    + rewrite main_not_mounted by (simpl; auto). simpl.
      repeat split; auto. discriminate.
Qed.

(** No argument at all; [unlink] without a name; [stat] without a name when
    the directory cannot be created. *)
Lemma C3_usage_errors_witness :
  run Sample.mounted [] = (-1, {| errno := 0; trace := []; out := "";
                                  err := usage_text "pq" |})
  /\ err (final (run Sample.mounted ["pq"; "unlink"])) = usage_text "pq"
  /\ err (final (run Sample.mkdir_denied ["pq"; "stat"]))
     = mkdir_diagnostic Sample.mkdir_denied.
Proof.
  split; [| split].
  - apply (proj1 (C3_usage_errors Sample.mounted) []). simpl; lia.
  - apply (proj2 (C3_usage_errors Sample.mounted) "pq" "unlink").
    + now right.
    + reflexivity.
  - change (mkdir_diagnostic Sample.mkdir_denied)
      with (err (snd (ensurePosixQueueFileSystemMounted
                        Sample.mkdir_denied boot))).
    apply (proj2 (C3_usage_errors Sample.mkdir_denied) "pq" "stat").
    + now left.
    + reflexivity.
Defined.

(** C3 as stated fails: [stat] without a queue name does print the usage
    message and exit with -1, but [mkdir] and [mount] were called before. *)
Lemma C3_counterexample :
  ~ (err (final (run Sample.mounted ["pq"; "stat"])) = usage_text "pq"
     /\ exit_code (run Sample.mounted ["pq"; "stat"]) <> 0
     /\ existsb os_mutation (trace (final (run Sample.mounted ["pq"; "stat"])))
        = false).
Proof.
  intros (_ & _ & H). vm_compute in H. discriminate H.
Qed.

(** ** Stat *)

Lemma stat_open_fails (w : World) (name : string) (s : OS) :
  rv (the_mq_open w name) < 0 ->
  printPosixQueueInfo w name s =
    (false, {| errno := en (the_mq_open w name);
               trace := trace s ++ [ev_mq_open w name];
               out := out s;
               err := err s ++ open_diagnostic w name |}).
Proof.
  intros H. apply Z.ltb_lt in H.
  unfold printPosixQueueInfo. unfold_calls.
  fold (the_mq_open w name). rewrite H. reflexivity.
Qed.

Lemma stat_query_fails (w : World) (name : string) (s : OS) :
  0 <= rv (the_mq_open w name) ->
  rv (fst (the_mq_getattr w name)) <> 0 ->
  printPosixQueueInfo w name s =
    (false, {| errno := en (the_mq_close w name);
               trace := trace s ++ [ev_mq_open w name; ev_mq_getattr w name;
                                    ev_mq_close w name];
               out := out s;
               err := err s ++ query_diagnostic w name |}).
Proof.
  intros H Hg. apply Z.ltb_ge in H. apply Z.eqb_neq in Hg.
  unfold printPosixQueueInfo. unfold_calls.
  fold (the_mq_open w name). rewrite H.
  fold (the_mq_getattr w name). unfold nonzero. rewrite Hg. simpl.
  fold (the_mq_close w name). rewrite <- !app_assoc. reflexivity.
Qed.

Lemma stat_ok (w : World) (name : string) (s : OS) :
  0 <= rv (the_mq_open w name) ->
  rv (fst (the_mq_getattr w name)) = 0 ->
  printPosixQueueInfo w name s =
    (true, {| errno := en (the_mq_close w name);
              trace := trace s ++ [ev_mq_open w name; ev_mq_getattr w name;
                                   ev_mq_close w name];
              out := out s
                       ++ unlines (report_lines (snd (the_mq_getattr w name)));
              err := err s |}).
Proof.
  intros H Hg. apply Z.ltb_ge in H.
  unfold printPosixQueueInfo. unfold_calls.
  fold (the_mq_open w name). rewrite H.
  fold (the_mq_getattr w name). unfold nonzero. rewrite Hg. simpl.
  fold (the_mq_close w name). rewrite <- !app_assoc.
  unfold ev_mq_getattr. rewrite Hg. reflexivity.
Qed.

(** *** Lines of text *)

Lemma one_line_append (a b : string) :
  one_line (a ++ b) = one_line a && one_line b.
Proof.
  induction a as [| c a IH]; simpl; [reflexivity |].
  now rewrite IH, andb_assoc.
Qed.

Lemma lines_cons (l rest : string) :
  one_line l = true -> lines (l ++ nl ++ rest) = l :: lines rest.
Proof.
  induction l as [| c l IH]; intros H.
  - reflexivity.
  - simpl in H. apply andb_true_iff in H. destruct H as [Hc Hl].
    apply negb_true_iff in Hc.
    change ((String c l ++ nl ++ rest)%string)
      with (String c (l ++ nl ++ rest)).
    cbn [lines]. rewrite Hc, (IH Hl). reflexivity.
Qed.

Lemma lines_unlines (ls : list string) :
  forallb one_line ls = true -> lines (unlines ls) = ls.
Proof.
  induction ls as [| l ls IH]; intros H.
  - reflexivity.
  - simpl in H. apply andb_true_iff in H. destruct H as [Hl Hls].
    cbn [unlines fold_right]. fold (unlines ls).
    rewrite lines_cons by assumption. now rewrite IH.
Qed.

Lemma one_line_digits (d : uint) : one_line (NilEmpty.string_of_uint d) = true.
Proof. induction d; simpl; auto. Qed.

Lemma one_line_fmt_ld (z : Z) : one_line (fmt_ld z) = true.
Proof.
  unfold fmt_ld, NilZero.string_of_int, NilZero.string_of_uint.
  destruct (Z.to_int z) as [d | d]; destruct d; try reflexivity.
  all: match goal with
       | |- one_line (String _ ?t) = true =>
           change (one_line t = true)
       | _ => idtac
       end.
  all: apply (one_line_digits (_ _)).
Qed.

Lemma one_line_report (a : mq_attr) :
  forallb one_line (report_lines a) = true.
Proof.
  unfold report_lines. cbn [forallb].
  rewrite !one_line_append, !one_line_fmt_ld. reflexivity.
Qed.

(** C7.  When the queue opens and its attributes are obtained,
    [printPosixQueueInfo] returns [true] and writes to [stdout] exactly four
    lines: the keys [flags], [maxmsg], [msgsize] and [curmsgs], in this
    order, each followed on its line by the value of the attribute
    [mq_getattr] gave. *)
Theorem C7_stat_report (w : World) (name : string) (s : OS) :
  0 <= rv (the_mq_open w name) ->
  rv (fst (the_mq_getattr w name)) = 0 ->
  fst (printPosixQueueInfo w name s) = true
  /\ out (snd (printPosixQueueInfo w name s))
     = (out s ++ unlines (report_lines (snd (the_mq_getattr w name))))%string
  /\ lines (unlines (report_lines (snd (the_mq_getattr w name))))
     = [ "flags   " ++ fmt_ld (mq_flags (snd (the_mq_getattr w name)));
         "maxmsg  " ++ fmt_ld (mq_maxmsg (snd (the_mq_getattr w name)));
         "msgsize " ++ fmt_ld (mq_msgsize (snd (the_mq_getattr w name)));
         "curmsgs " ++ fmt_ld (mq_curmsgs (snd (the_mq_getattr w name))) ]%string
  /\ err (snd (printPosixQueueInfo w name s)) = err s.
Proof.
  intros Ho Hg. rewrite stat_ok by assumption. cbn [fst snd out err].
  split; [reflexivity |]. split; [reflexivity |]. split; [| reflexivity].
  apply (lines_unlines (report_lines _)), one_line_report.
Qed.

(** The report of a queue of ten messages of 1024 bytes, empty. *)
Lemma C7_stat_report_witness :
  out (snd (printPosixQueueInfo Sample.mounted "/jobs" boot))
  = unlines ["flags   0"; "maxmsg  10"; "msgsize 1024"; "curmsgs 0"].
Proof.
  apply (C7_stat_report Sample.mounted "/jobs" boot).
  - simpl; lia.
  - reflexivity.
Defined.

(** *** Queue descriptors held by the process *)

Lemma remove_first_head (fd : Z) (held : list Z) :
  remove_first fd (fd :: held) = held.
Proof. simpl. now rewrite Z.eqb_refl. Qed.

Lemma open_handles_app (t t' : list event) :
  open_handles (t ++ t') = fold_left track t' (open_handles t).
Proof. unfold open_handles. apply fold_left_app. Qed.

(** C5.  When [mq_open] returns a descriptor, the calls
    [printPosixQueueInfo] makes are [mq_open], [mq_getattr] and, last,
    [mq_close] on that descriptor, whether [mq_getattr] succeeds or fails;
    and in every case the descriptors open when the function returns are
    those that were open when it was called. *)
Theorem C5_stat_closes_handle (w : World) (name : string) (s : OS) :
  (0 <= rv (the_mq_open w name) ->
   trace (snd (printPosixQueueInfo w name s))
   = (trace s ++ [ EMqOpen name O_RDONLY (rv (the_mq_open w name));
                   ev_mq_getattr w name;
                   EMqClose (rv (the_mq_open w name))
                            (rv (the_mq_close w name)) ])%list)
  /\ open_handles (trace (snd (printPosixQueueInfo w name s)))
     = open_handles (trace s).
Proof.
  destruct (Z.lt_ge_cases (rv (the_mq_open w name)) 0) as [Hlt | Hge].
  - split; [lia |]. rewrite stat_open_fails by assumption. cbn [snd trace].
    rewrite open_handles_app. unfold ev_mq_open. cbn [fold_left track].
    apply Z.leb_gt in Hlt. now rewrite Hlt.
  - assert (Hheld : forall g c,
               fold_left track
                 [ EMqOpen name O_RDONLY (rv (the_mq_open w name));
                   EMqGetattr (rv (the_mq_open w name)) g;
                   EMqClose (rv (the_mq_open w name)) c ]
                 (open_handles (trace s))
               = open_handles (trace s)).
    { intros g c. cbn [fold_left track].
      apply Z.leb_le in Hge. rewrite Hge. apply remove_first_head. }
    destruct (Z.eq_dec (rv (fst (the_mq_getattr w name))) 0) as [Hg | Hg].
    + rewrite stat_ok by assumption. cbn [snd trace]. split; [reflexivity |].
      rewrite open_handles_app. apply Hheld.
    + rewrite stat_query_fails by assumption. cbn [snd trace].
      split; [reflexivity |]. rewrite open_handles_app. apply Hheld.
Qed.

(** The descriptor is given back when [mq_getattr] fails. *)
Lemma C5_stat_closes_handle_witness :
  trace (snd (printPosixQueueInfo Sample.getattr_fails "/jobs" boot))
  = [ EMqOpen "/jobs" O_RDONLY 3; EMqGetattr 3 (-1); EMqClose 3 0 ]
  /\ open_handles
       (trace (snd (printPosixQueueInfo Sample.getattr_fails "/jobs" boot)))
     = [].
Proof.
  split.
  - apply (proj1 (C5_stat_closes_handle Sample.getattr_fails "/jobs" boot)).
    simpl; lia.
  - apply (proj2 (C5_stat_closes_handle Sample.getattr_fails "/jobs" boot)).
Defined.

(** C8.  When [mq_open] fails, [printPosixQueueInfo] reports the failure on
    [stderr] with the reason [strerror] gives for the [errno] of [mq_open],
    writes nothing to [stdout] and returns [false]; the [stat] subcommand
    then exits with -1 with nothing on [stdout], and what it leaves on
    [stderr] after a successful mount step is that report. *)
Theorem C8_stat_open_failure
  (w : World) (prog name : string) (rest : list string) (s : OS) :
  rv (the_mq_open w name) < 0 ->
  printPosixQueueInfo w name s
  = (false, {| errno := en (the_mq_open w name);
               trace := trace s ++ [ev_mq_open w name];
               out := out s;
               err := err s
                        ++ "Error: Couldn't open queue " ++ name ++ " ("
                        ++ strerror w (en (the_mq_open w name)) ++ ")" ++ nl |})
  /\ exit_code (run w (prog :: "stat" :: name :: rest)) = -1
  /\ exit_code (run w (prog :: "stat" :: name :: rest)) <> 0
  /\ out (final (run w (prog :: "stat" :: name :: rest))) = ""
  /\ (fst (ensurePosixQueueFileSystemMounted w boot) = true ->
      err (final (run w (prog :: "stat" :: name :: rest)))
      = open_diagnostic w name).
Proof.
  intros Hf. split; [now apply stat_open_fails |].
  unfold run, exit_code, final.
  pose proof (ensure_out w boot) as Ho.
  destruct (fst (ensurePosixQueueFileSystemMounted w boot)) eqn:Hm.
  - rewrite main_stat; [| simpl; lia | assumption | reflexivity].
    cbn [nth]. rewrite stat_open_fails by assumption. cbn [fst snd out err].
    rewrite (ensure_quiet w boot Hm). repeat split; auto. discriminate.
  - rewrite main_not_mounted; [| simpl; lia | assumption].
    cbn [fst snd]. repeat split; auto; discriminate.
Qed.

(** [stat] on a queue that does not exist. *)
Lemma C8_stat_open_failure_witness :
  exit_code (run Sample.no_queue ["pq"; "stat"; "/nothing"]) = -1
  /\ out (final (run Sample.no_queue ["pq"; "stat"; "/nothing"])) = ""
  /\ err (final (run Sample.no_queue ["pq"; "stat"; "/nothing"]))
     = ("Error: Couldn't open queue /nothing (No such file or directory)"
          ++ nl)%string.
Proof.
  pose proof (C8_stat_open_failure Sample.no_queue "pq" "/nothing" [] boot)
    as H.
  destruct H as (_ & He & _ & Ho & Hr); [simpl; lia |].
  split; [exact He | split; [exact Ho | exact (Hr eq_refl)]].
Defined.

(** *** The result of [mq_close] *)

(** C9.  Whatever [mq_close] returns, the result of [printPosixQueueInfo]
    and what it writes to [stdout] and [stderr] are the same; in particular
    the result is [true] as soon as [mq_open] and [mq_getattr] succeeded. *)
Theorem C9_stat_ignores_close
  (w : World) (c : Z -> sysret) (name : string) (s : OS) :
  (fst (printPosixQueueInfo (with_mq_close c w) name s)
   = fst (printPosixQueueInfo w name s)
   /\ out (snd (printPosixQueueInfo (with_mq_close c w) name s))
      = out (snd (printPosixQueueInfo w name s))
   /\ err (snd (printPosixQueueInfo (with_mq_close c w) name s))
      = err (snd (printPosixQueueInfo w name s)))
  /\ (0 <= rv (the_mq_open w name) ->
      rv (fst (the_mq_getattr w name)) = 0 ->
      fst (printPosixQueueInfo (with_mq_close c w) name s) = true).
Proof.
  assert (Eo : the_mq_open (with_mq_close c w) name = the_mq_open w name)
    by reflexivity.
  assert (Eg : the_mq_getattr (with_mq_close c w) name
               = the_mq_getattr w name) by reflexivity.
  split.
  - destruct (Z.lt_ge_cases (rv (the_mq_open w name)) 0) as [Hlt | Hge].
    + rewrite !stat_open_fails by (rewrite ?Eo; assumption).
      now repeat split.
    + destruct (Z.eq_dec (rv (fst (the_mq_getattr w name))) 0) as [Hg | Hg].
      * rewrite !stat_ok by (rewrite ?Eo, ?Eg; assumption). now repeat split.
      * rewrite !stat_query_fails by (rewrite ?Eo, ?Eg; assumption).
        now repeat split.
  - intros Ho Hg. rewrite stat_ok by (rewrite ?Eo, ?Eg; assumption).
    reflexivity.
Qed.

(** [mq_close] failing with [EBADF] changes nothing. *)
Lemma C9_stat_ignores_close_witness :
  fst (printPosixQueueInfo
         (with_mq_close (fun _ => Sample.fail 9) Sample.mounted) "/jobs" boot)
  = true.
Proof.
  apply (proj2 (C9_stat_ignores_close Sample.mounted
                  (fun _ => Sample.fail 9) "/jobs" boot)).
  - simpl; lia.
  - reflexivity.
Defined.

(** ** List *)

Lemma skip_test (ent : dirent) :
  (d_type ent =? DT_DIR) || Ascii.eqb (first_char (d_name ent)) "."%char
  = negb (listed ent).
Proof.
  unfold listed. rewrite negb_andb, !negb_involutive. f_equal.
  destruct (d_name ent) as [| c rest]; [reflexivity |].
  cbn [first_char prefix].
  destruct (ascii_dec "." c) as [E | N].
  - subst c. now destruct rest.
  - apply Ascii.eqb_neq. congruence.
Qed.

Lemma wrap_int_small (z : Z) : INT_MIN <= z <= INT_MAX -> wrap_int z = z.
Proof.
  unfold wrap_int, INT_MIN, INT_MAX. intros H.
  rewrite Z.mod_small; lia.
Qed.

Lemma unlines_cons (l : string) (ls : list string) :
  unlines (l :: ls) = (l ++ nl ++ unlines ls)%string.
Proof. reflexivity. Qed.

(** The loop writes to [stdout] only. *)
Lemma readdir_loop_err (d : list dirent) :
  forall (count : Z) (s : OS), err (snd (readdir_loop d count s)) = err s.
Proof.
  induction d as [| ent d IH]; intros count s.
  - reflexivity.
  - cbn [readdir_loop]. unfold bind, log, fprintf.
    destruct ((d_type ent =? DT_DIR)
              || Ascii.eqb (first_char (d_name ent)) "."%char);
      now rewrite IH.
Qed.

(** The loop: one line per listed entry, in the order of the stream, and
    their number as the result, as long as it fits an [int]. *)
Lemma readdir_loop_spec (d : list dirent) :
  forall (count : Z) (s : OS),
    0 <= count ->
    count + Z.of_nat (List.length (filter listed d)) <= INT_MAX ->
    fst (readdir_loop d count s)
    = count + Z.of_nat (List.length (filter listed d))
    /\ out (snd (readdir_loop d count s))
       = (out s ++ unlines (map d_name (filter listed d)))%string.
Proof.
  induction d as [| ent d IH]; intros count s H0 Hmax.
  - cbn. split; [lia | now rewrite append_nil_r].
  - cbn [readdir_loop]. unfold bind, log, fprintf.
    rewrite skip_test. cbn [filter] in *.
    destruct (listed ent); cbn [negb errno trace out err].
    + cbn [List.length map] in *. rewrite unlines_cons.
      rewrite wrap_int_small by (unfold INT_MIN; lia).
      match goal with
      | |- context [readdir_loop d (count + 1) ?s0] =>
          destruct (IH (count + 1) s0) as [Hc Ho]; [lia | lia |]
      end.
      rewrite Hc, Ho. cbn [out]. split; [lia |].
      now rewrite !append_assoc.
    + match goal with
      | |- context [readdir_loop d count ?s0] =>
          destruct (IH count s0) as [Hc Ho]; [lia | lia |]
      end.
      rewrite Hc, Ho. split; reflexivity.
Qed.

Lemma list_unreadable (w : World) (s : OS) :
  w_opendir w MOUNT_POINT = None ->
  listPosixQueues w s
  = (false, {| errno := errno s;
               trace := trace s ++ [EOpendir MOUNT_POINT false];
               out := out s;
               err := err s
                        ++ "Error: Couldn't read from the posix queue filesystem"
                        ++ nl |}).
Proof.
  intros H. unfold listPosixQueues, opendir. unfold_calls. now rewrite H.
Qed.

(** [listPosixQueues] when the directory opens: the loop, the placeholder
    when it counted nothing, [closedir]. *)
Lemma list_readable (w : World) (s : OS) (entries : list dirent) :
  w_opendir w MOUNT_POINT = Some entries ->
  listPosixQueues w s
  = let r := readdir_loop entries 0
               {| errno := errno s;
                  trace := trace s ++ [EOpendir MOUNT_POINT true];
                  out := out s; err := err s |} in
    (true, {| errno := en (w_closedir w);
              trace := trace (snd r) ++ [EClosedir (rv (w_closedir w))];
              out := if fst r =? 0 then out (snd r) ++ placeholder
                     else out (snd r);
              err := err (snd r) |}).
Proof.
  intros H.
  unfold listPosixQueues, opendir, closedir, syscall, bind, log, ret.
  rewrite H. cbv zeta.
  destruct (readdir_loop entries 0 _) as [count s1]. cbn [fst snd].
  destruct (count =? 0); reflexivity.
Qed.

(** C6.  When the directory opens, [listPosixQueues] writes to [stdout],
    one per line and in the order [readdir] yields them, exactly the names of
    the entries that are not directories and whose name does not begin with
    a dot; when there is no such entry it writes the placeholder line and
    nothing else.  (The number of names is counted in an [int] and is taken
    to fit it.) *)
Theorem C6_list_output (w : World) (s : OS) (entries : list dirent) :
  w_opendir w MOUNT_POINT = Some entries ->
  Z.of_nat (List.length (filter listed entries)) <= INT_MAX ->
  fst (listPosixQueues w s) = true
  /\ out (snd (listPosixQueues w s))
     = (out s ++ match filter listed entries with
                 | [] => placeholder
                 | queues => unlines (map d_name queues)
                 end)%string
  /\ err (snd (listPosixQueues w s)) = err s.
Proof.
  intros H Hmax. rewrite (list_readable w s entries H). cbv zeta.
  cbn [fst snd out err]. split; [reflexivity |].
  rewrite readdir_loop_err. split; [| reflexivity].
  destruct (readdir_loop_spec entries 0
              {| errno := errno s;
                 trace := trace s ++ [EOpendir MOUNT_POINT true];
                 out := out s; err := err s |}) as [Hc Ho]; [lia | lia |].
  rewrite Hc, Ho. cbn [out].
  destruct (filter listed entries) as [| q qs].
  - cbn [List.length Z.of_nat Z.add Z.eqb map unlines fold_right].
    now rewrite append_nil_r.
  - replace (0 + Z.of_nat (List.length (q :: qs)) =? 0) with false
      by (symmetry; apply Z.eqb_neq; cbn [List.length]; lia).
    reflexivity.
Qed.

(** Two queues among six entries; no queue at all. *)
Lemma C6_list_output_witness :
  out (snd (listPosixQueues Sample.mounted boot)) = unlines ["jobs"; "mail"]
  /\ out (snd (listPosixQueues Sample.empty_dir boot)) = placeholder.
Proof.
  split.
  - apply (C6_list_output Sample.mounted boot Sample.entries).
    + reflexivity.
    + vm_compute; discriminate.
  - apply (C6_list_output Sample.empty_dir boot
             [ {| d_type := DT_DIR; d_name := "." |};
               {| d_type := DT_DIR; d_name := ".." |} ]).
    + reflexivity.
    + vm_compute; discriminate.
Defined.

(** ** Unlink *)

Lemma unlink_fails (w : World) (name : string) (s : OS) :
  rv (w_mq_unlink w name) <> 0 ->
  unlinkPosixQueue w name s
  = (false, {| errno := en (w_mq_unlink w name);
               trace := trace s ++ [EMqUnlink name (rv (w_mq_unlink w name))];
               out := out s;
               err := err s ++ unlink_diagnostic w name |}).
Proof.
  intros H. apply Z.eqb_neq in H.
  unfold unlinkPosixQueue, nonzero. unfold_calls. now rewrite H.
Qed.

Lemma unlink_ok (w : World) (name : string) (s : OS) :
  rv (w_mq_unlink w name) = 0 ->
  unlinkPosixQueue w name s
  = (true, {| errno := en (w_mq_unlink w name);
              trace := trace s ++ [EMqUnlink name 0];
              out := out s;
              err := err s |}).
Proof.
  intros H. unfold unlinkPosixQueue, nonzero. unfold_calls. now rewrite H.
Qed.

(** ** Exit status *)














(** * Further properties of the program *)

(** ** The calls each operation makes *)

Lemma fatal_true (r : sysret) (e : Z) : fatal r e = true <-> failed_other r e.
Proof.
  split; [| apply fatal_test_true].
  unfold fatal, nonzero, failed_other. intros H.
  apply andb_true_iff in H. destruct H as [H1 H2].
  apply negb_true_iff in H1, H2. now apply Z.eqb_neq in H1, H2.
Qed.

Lemma fatal_false (r : sysret) (e : Z) :
  fatal r e = false <-> succeeded r \/ failed_with r e.
Proof.
  split; [| apply fatal_test_false].
  intros H. destruct (outcome_cases r e) as [Hs | [Hf | Ho]]; auto.
  apply fatal_true in Ho. congruence.
Qed.

Lemma mount_ok_tolerated (w : World) : mount_ok w = true <-> mount_tolerated w.
Proof.
  unfold mount_ok, mount_tolerated.
  rewrite andb_true_iff, !negb_true_iff, !fatal_false. tauto.
Qed.

Lemma ensure_result (w : World) (s : OS) :
  fst (ensurePosixQueueFileSystemMounted w s) = mount_ok w.
Proof.
  unfold mount_ok.
  destruct (fatal (the_mkdir w) EEXIST) eqn:Ek.
  - apply fatal_true in Ek. now rewrite ensure_mkdir_fatal.
  - apply fatal_false in Ek.
    destruct (fatal (the_mount w) EBUSY) eqn:Et.
    + apply fatal_true in Et. now rewrite ensure_mount_fatal.
    + apply fatal_false in Et. now rewrite ensure_ok.
Qed.

Lemma ensure_trace (w : World) (s : OS) :
  trace (snd (ensurePosixQueueFileSystemMounted w s))
  = (trace s ++ ensure_calls w)%list.
Proof.
  unfold ensure_calls.
  destruct (fatal (the_mkdir w) EEXIST) eqn:Ek.
  - apply fatal_true in Ek. now rewrite ensure_mkdir_fatal.
  - apply fatal_false in Ek.
    destruct (fatal (the_mount w) EBUSY) eqn:Et.
    + apply fatal_true in Et. now rewrite ensure_mount_fatal.
    + apply fatal_false in Et. now rewrite ensure_ok.
Qed.

Lemma busy_true (r : sysret) (e : Z) :
  nonzero (rv r) && (en r =? e) = true <-> failed_with r e.
Proof.
  split; [| apply busy_test_true].
  unfold nonzero, failed_with. intros H.
  apply andb_true_iff in H. destruct H as [H1 H2].
  apply negb_true_iff in H1. apply Z.eqb_neq in H1. apply Z.eqb_eq in H2.
  now split.
Qed.

Lemma busy_false (r : sysret) (e : Z) :
  nonzero (rv r) && (en r =? e) = false <-> succeeded r \/ failed_other r e.
Proof.
  split; [| apply busy_test_false].
  intros H. destruct (outcome_cases r e) as [Hs | [Hf | Ho]]; auto.
  apply busy_true in Hf. congruence.
Qed.

Lemma unmount_trace (w : World) (s : OS) :
  trace (snd (unmountPosixQueue w s)) = (trace s ++ unmount_calls w)%list.
Proof.
  unfold unmount_calls.
  destruct (nonzero (rv (the_umount w)) && (en (the_umount w) =? EBUSY))
    eqn:Eu.
  - apply busy_true in Eu. now rewrite unmount_busy.
  - apply busy_false in Eu.
    destruct (outcome_cases (the_rmdir w) EBUSY) as [Hr | [Hr | Hr]].
    + now rewrite unmount_done by auto.
    + now rewrite unmount_done by auto.
    + now rewrite unmount_rmdir_fatal by auto.
Qed.

Lemma unmount_out (w : World) (s : OS) :
  out (snd (unmountPosixQueue w s)) = out s.
Proof.
  destruct (outcome_cases (the_umount w) EBUSY) as [Hu | [Hu | Hu]].
  2: now rewrite unmount_busy.
  all: destruct (outcome_cases (the_rmdir w) EBUSY) as [Hr | [Hr | Hr]].
  all: first [ now rewrite unmount_done by auto
             | now rewrite unmount_rmdir_fatal by auto ].
Qed.

(** The loop asks [readdir] once per entry and once more to learn that
    there is no other. *)
Lemma readdir_loop_trace (d : list dirent) :
  forall (count : Z) (s : OS),
    trace (snd (readdir_loop d count s))
    = (trace s ++ map (fun ent => EReaddir (Some ent)) d
         ++ [EReaddir None])%list.
Proof.
  induction d as [| ent d IH]; intros count s.
  - reflexivity.
  - cbn [readdir_loop map]. unfold bind, log, fprintf.
    destruct ((d_type ent =? DT_DIR)
              || Ascii.eqb (first_char (d_name ent)) "."%char);
      rewrite IH; cbn [trace]; now rewrite <- app_assoc.
Qed.

Lemma list_trace (w : World) (s : OS) :
  trace (snd (listPosixQueues w s)) = (trace s ++ list_calls w)%list.
Proof.
  unfold list_calls.
  destruct (w_opendir w MOUNT_POINT) as [entries |] eqn:E.
  - rewrite (list_readable w s entries E). cbv zeta. cbn [snd trace].
    rewrite readdir_loop_trace. cbn [trace].
    rewrite <- !app_assoc. reflexivity.
  - now rewrite list_unreadable.
Qed.

Lemma stat_trace (w : World) (name : string) (s : OS) :
  trace (snd (printPosixQueueInfo w name s))
  = (trace s ++ stat_calls w name)%list.
Proof.
  unfold stat_calls.
  destruct (rv (the_mq_open w name) <? 0) eqn:E.
  - apply Z.ltb_lt in E. now rewrite stat_open_fails.
  - apply Z.ltb_ge in E.
    destruct (Z.eq_dec (rv (fst (the_mq_getattr w name))) 0) as [Hg | Hg].
    + now rewrite stat_ok.
    + now rewrite stat_query_fails.
Qed.

Lemma unlink_trace (w : World) (name : string) (s : OS) :
  trace (snd (unlinkPosixQueue w name s))
  = (trace s ++ unlink_calls w name)%list.
Proof.
  unfold unlink_calls.
  destruct (Z.eq_dec (rv (w_mq_unlink w name)) 0) as [H | H].
  - rewrite unlink_ok by assumption. cbn [snd trace]. now rewrite H.
  - now rewrite unlink_fails.
Qed.

Lemma unlink_out (w : World) (name : string) (s : OS) :
  out (snd (unlinkPosixQueue w name s)) = out s.
Proof.
  destruct (Z.eq_dec (rv (w_mq_unlink w name)) 0) as [H | H].
  - now rewrite unlink_ok.
  - now rewrite unlink_fails.
Qed.

(** The calls of a whole run. *)
Lemma run_trace (w : World) (argv : list string) :
  trace (final (run w argv)) = run_calls w argv.
Proof.
  unfold run, final, run_calls.
  destruct (Nat.lt_ge_cases (List.length argv) 2) as [Hshort | Hlong].
  { rewrite (proj2 (Nat.ltb_lt _ _) Hshort).
    now rewrite main_no_command. }
  rewrite (proj2 (Nat.ltb_ge _ _) Hlong).
  pose proof (ensure_result w boot) as Hm.
  pose proof (ensure_trace w boot) as Ht. cbn [trace boot app] in Ht.
  destruct (mount_ok w).
  2: { now rewrite main_not_mounted. }
  unfold command_calls.
  destruct (string_dec (nth 1 argv "") "ls") as [Hls | Hls].
  { rewrite main_ls by assumption. rewrite Hls. cbn [snd String.eqb
      Ascii.eqb Bool.eqb]. now rewrite list_trace, Ht. }
  rewrite (proj2 (String.eqb_neq _ _) Hls).
  destruct (string_dec (nth 1 argv "") "umount") as [Hum | Hum].
  { rewrite main_umount by assumption. rewrite Hum. cbn [snd String.eqb
      Ascii.eqb Bool.eqb]. now rewrite unmount_trace, Ht. }
  rewrite (proj2 (String.eqb_neq _ _) Hum).
  destruct (Nat.lt_ge_cases (List.length argv) 3) as [Htwo | Hthree].
  - assert (Hlen : List.length argv = 2%nat) by lia.
    rewrite (proj2 (Nat.leb_gt _ _) Htwo).
    destruct (string_dec (nth 1 argv "") "stat") as [Hst | Hst];
      [| destruct (string_dec (nth 1 argv "") "unlink") as [Hun | Hun]].
    + rewrite main_missing_name by auto. cbn [snd trace].
      rewrite Ht, Hst. cbn [String.eqb Ascii.eqb Bool.eqb].
      now rewrite app_nil_r.
    + rewrite main_missing_name by auto. cbn [snd trace].
      rewrite Ht, Hun. cbn [String.eqb Ascii.eqb Bool.eqb].
      now rewrite app_nil_r.
    + rewrite main_unknown by assumption. cbn [snd trace].
      rewrite Ht, (proj2 (String.eqb_neq _ _) Hst),
        (proj2 (String.eqb_neq _ _) Hun). now rewrite app_nil_r.
  - rewrite (proj2 (Nat.leb_le _ _) Hthree).
    destruct (string_dec (nth 1 argv "") "stat") as [Hst | Hst];
      [| destruct (string_dec (nth 1 argv "") "unlink") as [Hun | Hun]].
    + rewrite main_stat by assumption. rewrite Hst. cbn [snd String.eqb
        Ascii.eqb Bool.eqb]. now rewrite stat_trace, Ht.
    + rewrite main_unlink by assumption. rewrite Hun. cbn [snd String.eqb
        Ascii.eqb Bool.eqb]. now rewrite unlink_trace, Ht.
    + rewrite main_unknown by assumption. cbn [snd trace].
      rewrite Ht, (proj2 (String.eqb_neq _ _) Hst),
        (proj2 (String.eqb_neq _ _) Hun). now rewrite app_nil_r.
Qed.

(** ** Unlink *)

(** X1.  [unlinkPosixQueue] makes one call, [mq_unlink] on the name it was
    given, and writes nothing to [stdout]; it returns [true] exactly when
    that call returned 0, leaving [stderr] as it was, and otherwise reports
    the failure on [stderr] with the reason [strerror] gives. *)
Theorem X1_unlink_result (w : World) (name : string) (s : OS) :
  (fst (unlinkPosixQueue w name s) = true <-> rv (w_mq_unlink w name) = 0)
  /\ trace (snd (unlinkPosixQueue w name s))
     = (trace s ++ [EMqUnlink name (rv (w_mq_unlink w name))])%list
  /\ out (snd (unlinkPosixQueue w name s)) = out s
  /\ (rv (w_mq_unlink w name) = 0 ->
      err (snd (unlinkPosixQueue w name s)) = err s)
  /\ (rv (w_mq_unlink w name) <> 0 ->
      err (snd (unlinkPosixQueue w name s))
      = (err s ++ "Error: Failed unlink queue " ++ name ++ " ("
           ++ strerror w (en (w_mq_unlink w name)) ++ ")" ++ nl)%string).
Proof.
  split; [| split; [apply unlink_trace | split; [apply unlink_out |]]].
  - destruct (Z.eq_dec (rv (w_mq_unlink w name)) 0) as [H | H].
    + rewrite unlink_ok by assumption. tauto.
    + rewrite unlink_fails by assumption. cbn [fst].
      split; [discriminate | contradiction].
  - split; intros H.
    + now rewrite unlink_ok.
    + now rewrite unlink_fails.
Qed.

(** A queue that is not there: the reason is on [stderr]. *)
Lemma X1_unlink_result_witness :
  err (snd (unlinkPosixQueue Scenario.queue_gone "/gone" boot))
  = ("Error: Failed unlink queue /gone (No such file or directory)" ++ nl)%string.
Proof.
  apply (proj2 (proj2 (proj2 (proj2
           (X1_unlink_result Scenario.queue_gone "/gone" boot))))).
  discriminate.
Defined.

(** ** Unmount, once [umount] went through *)

(** X2.  When [umount] succeeds, [unmountPosixQueue] goes on to [rmdir] on
    the mount point, and nothing else.  It returns [true] exactly when
    [rmdir] succeeded or failed with [EBUSY], in which case nothing is
    written to [stderr]; any other failure of [rmdir] is reported there with
    its reason. *)
Theorem X2_unmount_removes_mount_point (w : World) (s : OS) :
  succeeded (the_umount w) ->
  trace (snd (unmountPosixQueue w s))
  = (trace s ++ [EUmount MOUNT_POINT 0;
                 ERmdir MOUNT_POINT (rv (the_rmdir w))])%list
  /\ (fst (unmountPosixQueue w s) = true <->
      succeeded (the_rmdir w) \/ failed_with (the_rmdir w) EBUSY)
  /\ (succeeded (the_rmdir w) \/ failed_with (the_rmdir w) EBUSY ->
      err (snd (unmountPosixQueue w s)) = err s)
  /\ (failed_other (the_rmdir w) EBUSY ->
      err (snd (unmountPosixQueue w s))
      = (err s ++ "Error: Couldn't remove posix filesystem mount point "
           ++ MOUNT_POINT ++ " (" ++ strerror w (en (the_rmdir w)) ++ ")"
           ++ nl)%string)
  /\ out (snd (unmountPosixQueue w s)) = out s.
Proof.
  intros Hu. pose proof Hu as Hz. unfold succeeded in Hz.
  split; [| split; [| split; [| split; [| apply unmount_out]]]].
  - destruct (outcome_cases (the_rmdir w) EBUSY) as [Hr | [Hr | Hr]].
    + rewrite unmount_done by auto. cbn [snd trace].
      unfold ev_umount, ev_rmdir. now rewrite Hz.
    + rewrite unmount_done by auto. cbn [snd trace].
      unfold ev_umount, ev_rmdir. now rewrite Hz.
    + rewrite unmount_rmdir_fatal by auto. cbn [snd trace].
      unfold ev_umount, ev_rmdir. now rewrite Hz.
  - destruct (outcome_cases (the_rmdir w) EBUSY) as [Hr | [Hr | Hr]].
    + rewrite unmount_done by auto. cbn [fst]. tauto.
    + rewrite unmount_done by auto. cbn [fst]. tauto.
    + rewrite unmount_rmdir_fatal by auto. cbn [fst].
      split; [discriminate |]. intros Ht. apply fatal_false in Ht.
      apply fatal_true in Hr. congruence.
  - intros Hr. now rewrite unmount_done by auto.
  - intros Hr. now rewrite unmount_rmdir_fatal by auto.
Qed.

(** Unmounted and removed. *)
Lemma X2_unmount_removes_mount_point_witness :
  trace (snd (unmountPosixQueue Sample.mounted boot))
  = [EUmount MOUNT_POINT 0; ERmdir MOUNT_POINT 0]
  /\ fst (unmountPosixQueue Sample.mounted boot) = true.
Proof.
  destruct (X2_unmount_removes_mount_point Sample.mounted boot)
    as (Ht & Hr & _); [reflexivity |].
  split; [exact Ht | apply Hr; left; reflexivity].
Defined.

(** ** Stat, when the attributes cannot be read *)

(** X3.  When the queue opens and [mq_getattr] fails,
    [printPosixQueueInfo] reports the failure on [stderr] with the reason
    [strerror] gives for the [errno] of [mq_getattr], writes nothing to
    [stdout] and returns [false]; the [stat] subcommand exits with -1 with
    nothing on [stdout]. *)
Theorem X3_stat_query_failure
  (w : World) (prog name : string) (rest : list string) (s : OS) :
  0 <= rv (the_mq_open w name) ->
  rv (fst (the_mq_getattr w name)) <> 0 ->
  fst (printPosixQueueInfo w name s) = false
  /\ out (snd (printPosixQueueInfo w name s)) = out s
  /\ err (snd (printPosixQueueInfo w name s))
     = (err s ++ "Error: Failed to query queue " ++ name
          ++ " for its parameters ("
          ++ strerror w (en (fst (the_mq_getattr w name))) ++ ")" ++ nl)%string
  /\ exit_code (run w (prog :: "stat" :: name :: rest)) = -1
  /\ out (final (run w (prog :: "stat" :: name :: rest))) = "".
Proof.
  intros Ho Hg. rewrite stat_query_fails by assumption. cbn [fst snd out err].
  split; [reflexivity |]. split; [reflexivity |]. split; [reflexivity |].
  unfold run, exit_code, final.
  pose proof (ensure_out w boot) as Hout.
  destruct (fst (ensurePosixQueueFileSystemMounted w boot)) eqn:Hm.
  - rewrite main_stat; [| simpl; lia | assumption | reflexivity].
    cbn [nth]. rewrite stat_query_fails by assumption. cbn [fst snd out].
    split; [reflexivity | exact Hout].
  - rewrite main_not_mounted; [| simpl; lia | assumption].
    cbn [fst snd]. split; [reflexivity | exact Hout].
Qed.

(** The query fails with [EINVAL]. *)
Lemma X3_stat_query_failure_witness :
  err (snd (printPosixQueueInfo Sample.getattr_fails "/jobs" boot))
  = ("Error: Failed to query queue /jobs for its parameters (Invalid argument)"
       ++ nl)%string
  /\ exit_code (run Sample.getattr_fails ["pq"; "stat"; "/jobs"]) = -1.
Proof.
  destruct (X3_stat_query_failure Sample.getattr_fails "pq" "/jobs" [] boot)
    as (_ & _ & He & Hx & _); [simpl; lia | discriminate |].
  split; [exact He | exact Hx].
Defined.

(** ** List, the directory and its stream *)

(** X4.  When [opendir] returns NULL, [listPosixQueues] makes no other
    call (no [readdir], no [closedir]), writes nothing to [stdout], returns
    [false] and puts on [stderr] a fixed message, which does not tell the
    reason; the [ls] subcommand exits with -1. *)
Theorem X4_list_unreadable
  (w : World) (prog : string) (rest : list string) (s : OS) :
  w_opendir w MOUNT_POINT = None ->
  listPosixQueues w s
  = (false, {| errno := errno s;
               trace := trace s ++ [EOpendir MOUNT_POINT false];
               out := out s;
               err := err s
                        ++ "Error: Couldn't read from the posix queue filesystem"
                        ++ nl |})
  /\ exit_code (run w (prog :: "ls" :: rest)) = -1
  /\ out (final (run w (prog :: "ls" :: rest))) = "".
Proof.
  intros Hd. split; [now apply list_unreadable |].
  unfold run, exit_code, final.
  pose proof (ensure_out w boot) as Hout.
  destruct (fst (ensurePosixQueueFileSystemMounted w boot)) eqn:Hm.
  - rewrite main_ls; [| simpl; lia | assumption | reflexivity].
    rewrite list_unreadable by assumption. cbn [fst snd out].
    split; [reflexivity | exact Hout].
  - rewrite main_not_mounted; [| simpl; lia | assumption].
    cbn [fst snd]. split; [reflexivity | exact Hout].
Qed.

(** The mount point cannot be read. *)
Lemma X4_list_unreadable_witness :
  exit_code (run Scenario.unreadable ["pq"; "ls"]) = -1.
Proof.
  apply (X4_list_unreadable Scenario.unreadable "pq" [] boot).
  reflexivity.
Defined.

(** X5.  When the directory opens, the calls of [listPosixQueues] are
    [opendir], one [readdir] for each entry of the stream in order, one more
    [readdir] that returns NULL, and [closedir]; the result is [true]
    whatever [closedir] returns. *)
Theorem X5_list_calls (w : World) (s : OS) (entries : list dirent) :
  w_opendir w MOUNT_POINT = Some entries ->
  trace (snd (listPosixQueues w s))
  = (trace s
       ++ EOpendir MOUNT_POINT true
       :: map (fun ent => EReaddir (Some ent)) entries
       ++ [EReaddir None; EClosedir (rv (w_closedir w))])%list
  /\ fst (listPosixQueues w s) = true.
Proof.
  intros Hd. split.
  - rewrite list_trace. unfold list_calls. now rewrite Hd.
  - now rewrite (list_readable w s entries Hd).
Qed.

(** Two entries, four calls on the stream. *)
Lemma X5_list_calls_witness :
  trace (snd (listPosixQueues Sample.empty_dir boot))
  = [ EOpendir MOUNT_POINT true;
      EReaddir (Some {| d_type := DT_DIR; d_name := "." |});
      EReaddir (Some {| d_type := DT_DIR; d_name := ".." |});
      EReaddir None;
      EClosedir 0 ].
Proof.
  apply (X5_list_calls Sample.empty_dir boot
           [ {| d_type := DT_DIR; d_name := "." |};
             {| d_type := DT_DIR; d_name := ".." |} ]).
  reflexivity.
Defined.

(** ** Calls that do not occur *)

Lemma ensure_calls_free (w : World) (p : event -> bool) :
  (forall a b c, p (EMkdir a b c) = false) ->
  (forall a b c d e, p (EMount a b c d e) = false) ->
  existsb p (ensure_calls w) = false.
Proof.
  intros Hk Ht. unfold ensure_calls, ev_mkdir, ev_mount.
  destruct (fatal (the_mkdir w) EEXIST); cbn [existsb];
    now rewrite ?Hk, ?Ht.
Qed.

Lemma unmount_calls_free (w : World) (p : event -> bool) :
  (forall a b, p (EUmount a b) = false) ->
  (forall a b, p (ERmdir a b) = false) ->
  existsb p (unmount_calls w) = false.
Proof.
  intros Hu Hr. unfold unmount_calls, ev_umount, ev_rmdir.
  destruct (nonzero (rv (the_umount w)) && (en (the_umount w) =? EBUSY));
    cbn [existsb]; now rewrite ?Hu, ?Hr.
Qed.

Lemma list_calls_free (w : World) (p : event -> bool) :
  (forall a b, p (EOpendir a b) = false) ->
  (forall a, p (EReaddir a) = false) ->
  (forall a, p (EClosedir a) = false) ->
  existsb p (list_calls w) = false.
Proof.
  intros Ho Hr Hc. unfold list_calls.
  destruct (w_opendir w MOUNT_POINT) as [entries |]; cbn [existsb].
  - rewrite Ho, existsb_app. cbn [existsb orb]. rewrite Hr, Hc.
    rewrite !orb_false_r.
    induction entries as [| ent entries IH]; [reflexivity |].
    cbn [map existsb]. now rewrite Hr, IH.
  - now rewrite Ho.
Qed.

Lemma stat_calls_free (w : World) (name : string) (p : event -> bool) :
  (forall a b c, p (EMqOpen a b c) = false) ->
  (forall a b, p (EMqGetattr a b) = false) ->
  (forall a b, p (EMqClose a b) = false) ->
  existsb p (stat_calls w name) = false.
Proof.
  intros Ho Hg Hc.
  unfold stat_calls, ev_mq_open, ev_mq_getattr, ev_mq_close.
  destruct (rv (the_mq_open w name) <? 0); cbn [existsb];
    now rewrite ?Ho, ?Hg, ?Hc.
Qed.

(** The commands never call [mkdir] or [mount]: that is for the mount
    step. *)
Lemma command_calls_no_setup (w : World) (argv : list string) :
  existsb is_mkdir (command_calls w argv) = false
  /\ existsb is_mount (command_calls w argv) = false.
Proof.
  unfold command_calls.
  split;
    repeat match goal with
           | |- context [if ?b then _ else _] => destruct b
           end;
    first [ reflexivity
          | apply list_calls_free; reflexivity
          | apply unmount_calls_free; reflexivity
          | apply stat_calls_free; reflexivity ].
Qed.

Lemma existsb_none_filter (A : Type) (p : A -> bool) (l : list A) :
  existsb p l = false -> filter p l = [].
Proof.
  induction l as [| x l IH]; [reflexivity |].
  cbn [existsb filter]. intros H. apply orb_false_iff in H.
  destruct H as [Hx Hl]. now rewrite Hx, IH.
Qed.

Lemma existsb_found (A : Type) (p : A -> bool) (l : list A) (x : A) :
  In x l -> p x = true -> existsb p l = false -> False.
Proof.
  intros Hin Hp Hno.
  assert (Hyes : existsb p l = true) by (apply existsb_exists; eauto).
  congruence.
Qed.

(** ** The dispatcher, beyond the claims *)

(** X6.  A command that is none of [ls], [umount], [stat] and [unlink] is
    rejected only after the mount step: when that step goes through, the
    calls of the run are [mkdir] and [mount], [stderr] holds the message
    that quotes the command (and no usage message), [stdout] is empty and
    the exit status is -1. *)
Theorem X6_unknown_command (w : World) (argv : list string) :
  (2 <= List.length argv)%nat ->
  mount_tolerated w ->
  nth 1 argv "" <> "ls" -> nth 1 argv "" <> "umount" ->
  nth 1 argv "" <> "stat" -> nth 1 argv "" <> "unlink" ->
  run w argv
  = (-1, {| errno := en (the_mount w);
            trace := [ev_mkdir w; ev_mount w];
            out := "";
            err := "Error: Invalid action "
                     ++ String (ascii_of_nat 34) (nth 1 argv "")
                     ++ String (ascii_of_nat 34) nl |}).
Proof.
  intros Hlen [Hk Ht] H1 H2 H3 H4. unfold run.
  rewrite main_unknown; try assumption.
  - now rewrite ensure_ok.
  - now rewrite ensure_ok.
Qed.

(** A mistyped command on a system where nothing was mounted yet. *)
Lemma X6_unknown_command_witness :
  run Scenario.fresh ["pq"; "list"]
  = (-1, {| errno := 0;
            trace := [ EMkdir "/dev/mqueue" 420 0;
                       EMount "none" "/dev/mqueue" "mqueue" 0 0 ];
            out := "";
            err := "Error: Invalid action "
                     ++ String (ascii_of_nat 34) "list"
                     ++ String (ascii_of_nat 34) nl |}).
Proof.
  apply (X6_unknown_command Scenario.fresh ["pq"; "list"]).
  - simpl; lia.
  - split; left; reflexivity.
  - discriminate.
  - discriminate.
  - discriminate.
  - discriminate.
Defined.

(** X7.  When the mount step fails, the run does not depend on the command
    line (of two arguments or more): it exits with -1 with nothing on
    [stdout], and either [mkdir] failed fatally, is the only call made and
    its diagnostic is on [stderr], or [mount] failed fatally after [mkdir],
    these are the two calls made and the diagnostic of [mount] is on
    [stderr]. *)
Theorem X7_mount_failure_stops_run (w : World) (argv argv' : list string) :
  (2 <= List.length argv)%nat ->
  (2 <= List.length argv')%nat ->
  ~ mount_tolerated w ->
  run w argv = run w argv'
  /\ exit_code (run w argv) = -1
  /\ out (final (run w argv)) = ""
  /\ ((failed_other (the_mkdir w) EEXIST
       /\ trace (final (run w argv)) = [ev_mkdir w]
       /\ err (final (run w argv)) = mkdir_diagnostic w)
      \/ (failed_other (the_mount w) EBUSY
          /\ trace (final (run w argv)) = [ev_mkdir w; ev_mount w]
          /\ err (final (run w argv)) = mount_diagnostic w)).
Proof.
  intros Hlen Hlen' Hno.
  assert (Hm : fst (ensurePosixQueueFileSystemMounted w boot) = false).
  { rewrite ensure_result. destruct (mount_ok w) eqn:E; [| reflexivity].
    apply mount_ok_tolerated in E. contradiction. }
  unfold run, exit_code, final.
  rewrite !main_not_mounted by assumption. cbn [fst snd].
  split; [reflexivity |]. split; [reflexivity |].
  split; [apply ensure_out |].
  destruct (outcome_cases (the_mkdir w) EEXIST) as [Hk | [Hk | Hk]].
  3: { left. rewrite ensure_mkdir_fatal by assumption.
       split; [assumption | split; reflexivity]. }
  all: destruct (outcome_cases (the_mount w) EBUSY) as [Ht | [Ht | Ht]].
  all: try (exfalso; apply Hno; split; auto; fail).
  all: right; rewrite ensure_mount_fatal by auto.
  all: split; [assumption | split; reflexivity].
Qed.

(** Without privilege, [ls] and [unlink] end the same way. *)
Lemma X7_mount_failure_stops_run_witness :
  run Sample.mount_denied ["pq"; "ls"]
  = run Sample.mount_denied ["pq"; "unlink"; "/jobs"].
Proof.
  apply (X7_mount_failure_stops_run Sample.mount_denied
           ["pq"; "ls"] ["pq"; "unlink"; "/jobs"]).
  - simpl; lia.
  - simpl; lia.
  - intros [_ [H | [_ H]]]; discriminate H.
Defined.

(** ** Descriptors at exit *)

Lemma track_where (p : event -> bool) (t : list event) :
  (forall e held, p e = false -> track held e = held) ->
  existsb p t = false ->
  forall held, fold_left track t held = held.
Proof.
  intros Hp. induction t as [| e t IH]; intros Hno held; [reflexivity |].
  cbn [existsb] in Hno. apply orb_false_iff in Hno. destruct Hno as [He Ht].
  cbn [fold_left]. rewrite (Hp e held He). now apply IH.
Qed.

Lemma track_other (e : event) (held : list Z) :
  (match e with
   | EMqOpen _ _ _ | EMqClose _ _ => true
   | _ => false
   end) = false ->
  track held e = held.
Proof. destruct e; intros H; try reflexivity; discriminate H. Qed.

Lemma track_stat_calls (w : World) (name : string) (held : list Z) :
  fold_left track (stat_calls w name) held = held.
Proof.
  unfold stat_calls, ev_mq_open, ev_mq_getattr, ev_mq_close.
  destruct (rv (the_mq_open w name) <? 0) eqn:E; cbn [fold_left track].
  - apply Z.ltb_lt in E.
    replace (0 <=? rv (the_mq_open w name)) with false
      by (symmetry; apply Z.leb_gt; lia).
    reflexivity.
  - apply Z.ltb_ge in E.
    replace (0 <=? rv (the_mq_open w name)) with true
      by (symmetry; apply Z.leb_le; lia).
    apply remove_first_head.
Qed.

(** X8.  No run ends with a queue descriptor still open, whatever the
    command line and whatever the calls return. *)
Theorem X8_no_descriptor_left (w : World) (argv : list string) :
  open_handles (trace (final (run w argv))) = [].
Proof.
  rewrite run_trace. unfold run_calls, open_handles.
  assert (Hq : forall t held,
             existsb (fun e => match e with
                               | EMqOpen _ _ _ | EMqClose _ _ => true
                               | _ => false
                               end) t = false ->
             fold_left track t held = held).
  { intros t held H. apply (track_where _ t track_other H). }
  assert (He : forall held, fold_left track (ensure_calls w) held = held).
  { intros held. apply Hq, ensure_calls_free; reflexivity. }
  destruct (List.length argv <? 2)%nat; [reflexivity |].
  destruct (mount_ok w); [| apply He].
  rewrite fold_left_app, He. unfold command_calls.
  repeat match goal with
         | |- context [if ?b then _ else _] => destruct b
         end;
    first [ reflexivity
          | apply track_stat_calls
          | apply Hq, list_calls_free; reflexivity
          | apply Hq, unmount_calls_free; reflexivity ].
Qed.

(** ** What goes to [stdout] *)

(** X9.  Only [ls] and [stat] write to [stdout]: a run whose command is
    neither leaves it empty. *)
Theorem X9_stdout_only_ls_and_stat (w : World) (argv : list string) :
  nth 1 argv "" <> "ls" ->
  nth 1 argv "" <> "stat" ->
  out (final (run w argv)) = "".
Proof.
  intros Hls Hst. unfold run, final.
  destruct (Nat.lt_ge_cases (List.length argv) 2) as [Hshort | Hlong].
  { now rewrite main_no_command. }
  pose proof (ensure_out w boot) as Hout. cbn [out boot] in Hout.
  destruct (fst (ensurePosixQueueFileSystemMounted w boot)) eqn:Hm.
  2: { now rewrite main_not_mounted. }
  destruct (string_dec (nth 1 argv "") "umount") as [Hum | Hum].
  { rewrite main_umount by assumption. cbn [snd].
    now rewrite unmount_out. }
  destruct (string_dec (nth 1 argv "") "unlink") as [Hun | Hun].
  - destruct (Nat.lt_ge_cases (List.length argv) 3) as [Htwo | Hthree].
    + rewrite main_missing_name; auto. lia.
    + rewrite main_unlink by assumption. cbn [snd].
      now rewrite unlink_out.
  - now rewrite main_unknown.
Qed.

(** Deleting a queue prints nothing. *)
Lemma X9_stdout_only_ls_and_stat_witness :
  out (final (run Sample.mounted ["pq"; "unlink"; "/jobs"])) = "".
Proof.
  apply (X9_stdout_only_ls_and_stat Sample.mounted ["pq"; "unlink"; "/jobs"]);
    discriminate.
Defined.

(** ** Arguments that do not count *)

(** X10.  With three arguments or more, a run depends on the command and
    the queue name only, not on the name of the program nor on what follows
    the queue name; and [ls] and [umount] take no account of anything after
    the command. *)
Theorem X10_arguments_ignored (w : World) :
  (forall (prog prog' cmd name : string) (rest rest' : list string),
      run w (prog :: cmd :: name :: rest)
      = run w (prog' :: cmd :: name :: rest'))
  /\ (forall (prog prog' cmd : string) (rest : list string),
         cmd = "ls" \/ cmd = "umount" ->
         run w (prog :: cmd :: rest) = run w [prog'; cmd]).
Proof.
  split.
  - intros prog prog' cmd name rest rest'. unfold run, main.
    rewrite !argc_two, !argc_three by (simpl; lia).
    reflexivity.
  - intros prog prog' cmd rest Hc. unfold run.
    assert (Hlen : (2 <= List.length (prog :: cmd :: rest))%nat)
      by (simpl; lia).
    assert (Hlen' : (2 <= List.length [prog'; cmd])%nat) by (simpl; lia).
    destruct (fst (ensurePosixQueueFileSystemMounted w boot)) eqn:Hm.
    + destruct Hc as [Hc | Hc]; subst cmd.
      * now rewrite !main_ls.
      * now rewrite !main_umount.
    + now rewrite !main_not_mounted.
Qed.

(** [stat] under another program name and with a stray argument. *)
Lemma X10_arguments_ignored_witness :
  run Sample.mounted ["pq"; "stat"; "/jobs"; "extra"]
  = run Sample.mounted ["./pq"; "stat"; "/jobs"]
  /\ run Sample.mounted ["pq"; "ls"; "-l"] = run Sample.mounted ["pq"; "ls"].
Proof.
  split.
  - apply (proj1 (X10_arguments_ignored Sample.mounted)).
  - apply (proj2 (X10_arguments_ignored Sample.mounted)). now left.
Defined.

(** ** When a command succeeds *)

Lemma status_zero (b : bool) : (if b then 0 else -1) = 0 <-> b = true.
Proof. destruct b; split; intros H; try reflexivity; discriminate H. Qed.

(** The exit status of a command that is reached only after the mount
    step. *)
Lemma exit_after_mount
  (w : World) (argv : list string) (op : OS -> bool * OS) :
  (2 <= List.length argv)%nat ->
  (fst (ensurePosixQueueFileSystemMounted w boot) = true ->
   main w argv boot
   = ((if fst (op (snd (ensurePosixQueueFileSystemMounted w boot)))
       then 0 else -1),
      snd (op (snd (ensurePosixQueueFileSystemMounted w boot))))) ->
  exit_code (run w argv) = 0 <->
  mount_tolerated w
  /\ fst (op (snd (ensurePosixQueueFileSystemMounted w boot))) = true.
Proof.
  intros Hlen Hmain. unfold run, exit_code.
  rewrite <- mount_ok_tolerated, <- (ensure_result w boot).
  destruct (fst (ensurePosixQueueFileSystemMounted w boot)) eqn:Hm.
  - rewrite (Hmain eq_refl). cbn [fst]. rewrite status_zero. tauto.
  - rewrite main_not_mounted by assumption. cbn [fst].
    split; [discriminate | intros [H _]; discriminate H].
Qed.

(** X11.  [ls] exits with 0 exactly when the mount step goes through and
    the mount point can be opened for reading: once it is open, nothing
    makes the listing fail. *)
Theorem X11_ls_succeeds_iff
  (w : World) (prog : string) (rest : list string) :
  exit_code (run w (prog :: "ls" :: rest)) = 0 <->
  mount_tolerated w /\ w_opendir w MOUNT_POINT <> None.
Proof.
  rewrite (exit_after_mount w _ (listPosixQueues w)).
  - destruct (w_opendir w MOUNT_POINT) as [entries |] eqn:E.
    + rewrite (list_readable w _ entries E). cbv zeta. cbn [fst].
      split; intros [H _]; (split; [exact H | easy]).
    + rewrite list_unreadable by assumption. cbn [fst].
      split; intros [_ H]; [discriminate H | now elim H].
  - simpl; lia.
  - intros Hm. apply main_ls; [simpl; lia | assumption | reflexivity].
Qed.

(** X12.  [stat] on a queue exits with 0 exactly when the mount step goes
    through, [mq_open] returns a descriptor and [mq_getattr] returns 0. *)
Theorem X12_stat_succeeds_iff
  (w : World) (prog name : string) (rest : list string) :
  exit_code (run w (prog :: "stat" :: name :: rest)) = 0 <->
  mount_tolerated w
  /\ 0 <= rv (the_mq_open w name)
  /\ rv (fst (the_mq_getattr w name)) = 0.
Proof.
  rewrite (exit_after_mount w _ (printPosixQueueInfo w name)).
  - destruct (Z.lt_ge_cases (rv (the_mq_open w name)) 0) as [Hlt | Hge].
    + rewrite stat_open_fails by assumption. cbn [fst].
      split; [intros [_ H]; discriminate H | intros (_ & H & _); lia].
    + destruct (Z.eq_dec (rv (fst (the_mq_getattr w name))) 0) as [Hg | Hg].
      * rewrite stat_ok by assumption. cbn [fst]. tauto.
      * rewrite stat_query_fails by assumption. cbn [fst].
        split; [intros [_ H]; discriminate H | intros (_ & _ & H); easy].
  - simpl; lia.
  - intros Hm.
    apply (main_stat w (prog :: "stat" :: name :: rest) boot);
      [simpl; lia | assumption | reflexivity].
Qed.

(** X13.  [unlink] on a queue exits with 0 exactly when the mount step goes
    through and [mq_unlink] returns 0. *)
Theorem X13_unlink_succeeds_iff
  (w : World) (prog name : string) (rest : list string) :
  exit_code (run w (prog :: "unlink" :: name :: rest)) = 0 <->
  mount_tolerated w /\ rv (w_mq_unlink w name) = 0.
Proof.
  rewrite (exit_after_mount w _ (unlinkPosixQueue w name)).
  - destruct (Z.eq_dec (rv (w_mq_unlink w name)) 0) as [H | H].
    + rewrite unlink_ok by assumption. cbn [fst]. tauto.
    + rewrite unlink_fails by assumption. cbn [fst].
      split; [intros [_ Hc]; discriminate Hc | intros [_ Hc]; easy].
  - simpl; lia.
  - intros Hm.
    apply (main_unlink w (prog :: "unlink" :: name :: rest) boot);
      [simpl; lia | assumption | reflexivity].
Qed.

(** ** Reading the listing back *)

(** X14.  When there is a queue to list and no listed name holds a
    newline, cutting what [listPosixQueues] wrote at the newlines gives back
    the names of the listed entries, in order.  (As for C6, their number is
    taken to fit an [int].) *)
Theorem X14_listing_reads_back (w : World) (s : OS) (entries : list dirent) :
  w_opendir w MOUNT_POINT = Some entries ->
  out s = "" ->
  filter listed entries <> [] ->
  Z.of_nat (List.length (filter listed entries)) <= INT_MAX ->
  forallb one_line (map d_name (filter listed entries)) = true ->
  lines (out (snd (listPosixQueues w s)))
  = map d_name (filter listed entries).
Proof.
  intros Hd Hs Hne Hmax Hone.
  rewrite (list_readable w s entries Hd). cbv zeta. cbn [snd out].
  destruct (readdir_loop_spec entries 0
              {| errno := errno s;
                 trace := trace s ++ [EOpendir MOUNT_POINT true];
                 out := out s; err := err s |}) as [Hc Ho]; [lia | lia |].
  rewrite Hc, Ho. cbn [out]. rewrite Hs.
  replace (0 + Z.of_nat (List.length (filter listed entries)) =? 0)
    with false.
  - now apply lines_unlines.
  - symmetry. apply Z.eqb_neq.
    destruct (filter listed entries); [contradiction | cbn [List.length]; lia].
Qed.

(** The two queues of the sample directory. *)
Lemma X14_listing_reads_back_witness :
  lines (out (snd (listPosixQueues Sample.mounted boot))) = ["jobs"; "mail"].
Proof.
  apply (X14_listing_reads_back Sample.mounted boot Sample.entries).
  - reflexivity.
  - reflexivity.
  - discriminate.
  - vm_compute; discriminate.
  - reflexivity.
Defined.

(** ** Calls that take something away *)

(** X15.  [mq_unlink] is called only at the user's request and only on the
    queue the user named: if a run calls it, the command is [unlink], a queue
    name was given, and the call is on that name. *)
Theorem X15_unlink_only_on_request
  (w : World) (argv : list string) (name : string) (res : Z) :
  In (EMqUnlink name res) (trace (final (run w argv))) ->
  nth 1 argv "" = "unlink"
  /\ (3 <= List.length argv)%nat
  /\ name = nth 2 argv "".
Proof.
  rewrite run_trace. unfold run_calls.
  destruct (List.length argv <? 2)%nat; [intros [] |].
  assert (He : In (EMqUnlink name res) (ensure_calls w) -> False).
  { intros H.
    apply (existsb_found _ is_unlink _ _ H eq_refl).
    apply ensure_calls_free; reflexivity. }
  destruct (mount_ok w); [| intros H; now apply He in H].
  intros H. apply in_app_or in H. destruct H as [H | H];
    [now apply He in H |].
  unfold command_calls in H.
  destruct (nth 1 argv "" =? "ls")%string.
  { exfalso. apply (existsb_found _ is_unlink _ _ H eq_refl).
    apply list_calls_free; reflexivity. }
  destruct (nth 1 argv "" =? "umount")%string.
  { exfalso. apply (existsb_found _ is_unlink _ _ H eq_refl).
    apply unmount_calls_free; reflexivity. }
  destruct (nth 1 argv "" =? "stat")%string.
  { exfalso. destruct (3 <=? List.length argv)%nat; [| exact H].
    apply (existsb_found _ is_unlink _ _ H eq_refl).
    apply stat_calls_free; reflexivity. }
  destruct (nth 1 argv "" =? "unlink")%string eqn:Hc; [| destruct H].
  apply String.eqb_eq in Hc.
  destruct (3 <=? List.length argv)%nat eqn:Hn; [| destruct H].
  apply Nat.leb_le in Hn.
  destruct H as [H | []]. injection H as Hname _.
  now repeat split.
Qed.

(** The one queue deleted is the one named. *)
Lemma X15_unlink_only_on_request_witness :
  nth 1 ["pq"; "unlink"; "/jobs"] "" = "unlink"
  /\ (3 <= List.length ["pq"; "unlink"; "/jobs"])%nat
  /\ "/jobs" = nth 2 ["pq"; "unlink"; "/jobs"] "".
Proof.
  apply (X15_unlink_only_on_request Sample.mounted
           ["pq"; "unlink"; "/jobs"] "/jobs" 0).
  vm_compute. right. right. left. reflexivity.
Defined.

(** X16.  [umount] and [rmdir] are called only for the command [umount],
    and only on the mount point. *)
Theorem X16_unmount_only_on_request
  (w : World) (argv : list string) (e : event) :
  In e (trace (final (run w argv))) ->
  is_umount e = true \/ is_rmdir e = true ->
  nth 1 argv "" = "umount" /\ (e = ev_umount w \/ e = ev_rmdir w).
Proof.
  rewrite run_trace. unfold run_calls. intros H Hp.
  assert (Hp' : (fun x => is_umount x || is_rmdir x) e = true)
    by (apply orb_true_iff; exact Hp).
  destruct (List.length argv <? 2)%nat; [destruct H |].
  assert (He : In e (ensure_calls w) -> False).
  { intros Hin.
    apply (existsb_found _ _ _ _ Hin Hp').
    apply ensure_calls_free; reflexivity. }
  destruct (mount_ok w); [| now apply He in H].
  apply in_app_or in H. destruct H as [H | H]; [now apply He in H |].
  unfold command_calls in H.
  destruct (nth 1 argv "" =? "ls")%string.
  { exfalso. apply (existsb_found _ _ _ _ H Hp').
    apply list_calls_free; reflexivity. }
  destruct (nth 1 argv "" =? "umount")%string eqn:Hc.
  { apply String.eqb_eq in Hc. split; [exact Hc |].
    unfold unmount_calls in H.
    destruct (nonzero (rv (the_umount w)) && (en (the_umount w) =? EBUSY)).
    - destruct H as [H | []]. now left.
    - destruct H as [H | [H | []]]; [now left | now right]. }
  exfalso.
  destruct (nth 1 argv "" =? "stat")%string.
  { destruct (3 <=? List.length argv)%nat; [| exact H].
    apply (existsb_found _ _ _ _ H Hp').
    apply stat_calls_free; reflexivity. }
  destruct (nth 1 argv "" =? "unlink")%string; [| exact H].
  destruct (3 <=? List.length argv)%nat; [| exact H].
  destruct H as [H | []]. subst e. destruct Hp as [Hp | Hp]; discriminate Hp.
Qed.

(** The [rmdir] of a run of [umount]. *)
Lemma X16_unmount_only_on_request_witness :
  nth 1 ["pq"; "umount"] "" = "umount"
  /\ (ERmdir MOUNT_POINT 0 = ev_umount Sample.mounted
      \/ ERmdir MOUNT_POINT 0 = ev_rmdir Sample.mounted).
Proof.
  apply (X16_unmount_only_on_request Sample.mounted ["pq"; "umount"]
           (ERmdir MOUNT_POINT 0)).
  - vm_compute. right. right. right. left. reflexivity.
  - right. reflexivity.
Defined.

(** ** The mount step, first and once *)

(** X17.  With two arguments or more, whatever they are, the first call of
    the run is [mkdir] on the mount point, and it is the only [mkdir];
    [mount] is called once when [mkdir] did not fail fatally and not at all
    when it did. *)
Theorem X17_mount_step_first_and_once (w : World) (argv : list string) :
  (2 <= List.length argv)%nat ->
  hd_error (trace (final (run w argv)))
  = Some (EMkdir MOUNT_POINT 420 (rv (the_mkdir w)))
  /\ filter is_mkdir (trace (final (run w argv)))
     = [EMkdir MOUNT_POINT 420 (rv (the_mkdir w))]
  /\ filter is_mount (trace (final (run w argv)))
     = (if fatal (the_mkdir w) EEXIST then []
        else [EMount "none" MOUNT_POINT "mqueue" 0 (rv (the_mount w))]).
Proof.
  intros Hlen. rewrite run_trace. unfold run_calls.
  rewrite (proj2 (Nat.ltb_ge _ _) Hlen).
  destruct (command_calls_no_setup w argv) as [Hk Ht].
  apply existsb_none_filter in Hk, Ht.
  assert (He : hd_error (ensure_calls w) = Some (ev_mkdir w)
               /\ filter is_mkdir (ensure_calls w) = [ev_mkdir w]
               /\ filter is_mount (ensure_calls w)
                  = (if fatal (the_mkdir w) EEXIST then []
                     else [ev_mount w])).
  { unfold ensure_calls. destruct (fatal (the_mkdir w) EEXIST);
      repeat split. }
  destruct He as (Eh & Ek & Et).
  destruct (mount_ok w); [| now repeat split].
  rewrite !filter_app, Hk, Ht, !app_nil_r.
  split; [| now split].
  unfold ensure_calls in *.
  destruct (fatal (the_mkdir w) EEXIST); exact Eh.
Qed.

(** Even a run that only prints the usage message creates the
    directory. *)
Lemma X17_mount_step_first_and_once_witness :
  hd_error (trace (final (run Scenario.fresh ["pq"; "stat"])))
  = Some (EMkdir MOUNT_POINT 420 0).
Proof.
  apply (X17_mount_step_first_and_once Scenario.fresh ["pq"; "stat"]).
  simpl; lia.
Defined.

(** ** The listing, whatever the number of queues *)

(** What the loop writes does not depend on its counter. *)
Lemma readdir_loop_out (d : list dirent) :
  forall (count : Z) (s : OS),
    out (snd (readdir_loop d count s))
    = (out s ++ unlines (map d_name (filter listed d)))%string.
Proof.
  induction d as [| ent d IH]; intros count s.
  - cbn. now rewrite append_nil_r.
  - cbn [readdir_loop]. unfold bind, log, fprintf.
    rewrite skip_test. cbn [filter].
    destruct (listed ent); cbn [negb]; rewrite IH; cbn [out]; [| reflexivity].
    cbn [map]. rewrite unlines_cons. now rewrite !append_assoc.
Qed.

(** The counter stays where it is when nothing is listed. *)
Lemma readdir_loop_idle (d : list dirent) :
  filter listed d = [] ->
  forall (count : Z) (s : OS), fst (readdir_loop d count s) = count.
Proof.
  induction d as [| ent d IH]; intros Hnone count s.
  - reflexivity.
  - cbn [readdir_loop]. unfold bind, log.
    rewrite skip_test. cbn [filter] in Hnone.
    destruct (listed ent); [discriminate Hnone |].
    cbn [negb]. now apply IH.
Qed.

(** X18.  When the directory opens, [listPosixQueues] writes the name of
    every listed entry, one per line and in order, whatever their number, and
    after them either nothing or the placeholder line; with no listed entry
    it writes the placeholder line alone. *)
Theorem X18_listing_is_complete (w : World) (s : OS) (entries : list dirent) :
  w_opendir w MOUNT_POINT = Some entries ->
  (exists tail : string,
      (tail = "" \/ tail = placeholder)
      /\ out (snd (listPosixQueues w s))
         = (out s ++ unlines (map d_name (filter listed entries))
              ++ tail)%string)
  /\ (filter listed entries = [] ->
      out (snd (listPosixQueues w s)) = (out s ++ placeholder)%string).
Proof.
  intros Hd. rewrite (list_readable w s entries Hd). cbv zeta.
  cbn [snd out]. rewrite readdir_loop_out. cbn [out]. split.
  - match goal with
    | |- context [if ?b then _ else _] => destruct b
    end.
    + exists placeholder. split; [now right | apply append_assoc].
    + exists "". split; [now left | now rewrite append_nil_r].
  - intros Hnone. rewrite (readdir_loop_idle entries Hnone), Hnone.
    cbn [Z.eqb map unlines fold_right]. now rewrite append_nil_r.
Qed.

(** A directory that holds [.] and [..] only. *)
Lemma X18_listing_is_complete_witness :
  out (snd (listPosixQueues Sample.empty_dir boot)) = placeholder.
Proof.
  apply (proj2 (X18_listing_is_complete Sample.empty_dir boot
                  [ {| d_type := DT_DIR; d_name := "." |};
                    {| d_type := DT_DIR; d_name := ".." |} ] eq_refl)).
  reflexivity.
Defined.

(** ** Failure and [stdout] *)

(** X19.  A run that fails has written nothing to [stdout]: the report of
    [stat] and the listing of [ls] come out only in runs that exit
    with 0. *)
Theorem X19_failure_prints_nothing (w : World) (argv : list string) :
  exit_code (run w argv) <> 0 ->
  out (final (run w argv)) = "".
Proof.
  unfold run, exit_code, final.
  destruct (Nat.lt_ge_cases (List.length argv) 2) as [Hshort | Hlong];
    [now rewrite main_no_command |].
  pose proof (ensure_out w boot) as Hout; cbn [out boot] in Hout.
  destruct (fst (ensurePosixQueueFileSystemMounted w boot)) eqn:Hm;
    [| now rewrite main_not_mounted].
  destruct (string_dec (nth 1 argv "") "ls") as [Hls | Hls];
    [| destruct (string_dec (nth 1 argv "") "stat") as [Hst | Hst]].
  3: { intros _.
       destruct (string_dec (nth 1 argv "") "umount") as [Hum | Hum].
       { rewrite main_umount by assumption. cbn [snd].
         now rewrite unmount_out. }
       destruct (string_dec (nth 1 argv "") "unlink") as [Hun | Hun];
         [| now rewrite main_unknown].
       destruct (Nat.lt_ge_cases (List.length argv) 3) as [Htwo | Hthree].
       - rewrite main_missing_name; auto. lia.
       - rewrite main_unlink by assumption. cbn [snd].
         now rewrite unlink_out. }
  - rewrite main_ls by assumption. cbn [fst snd].
    destruct (w_opendir w MOUNT_POINT) as [entries |] eqn:E.
    + rewrite (list_readable w _ entries E). cbv zeta. cbn [fst].
      intros H. now elim H.
    + now rewrite list_unreadable.
  - destruct (Nat.lt_ge_cases (List.length argv) 3) as [Htwo | Hthree].
    { rewrite main_missing_name; auto. lia. }
    rewrite main_stat by assumption. cbn [fst snd].
    destruct (Z.lt_ge_cases (rv (the_mq_open w (nth 2 argv ""))) 0)
      as [Hlt | Hge].
    + now rewrite stat_open_fails.
    + destruct (Z.eq_dec (rv (fst (the_mq_getattr w (nth 2 argv "")))) 0)
        as [Hg | Hg].
      * rewrite stat_ok by assumption. cbn [fst]. intros H. now elim H.
      * now rewrite stat_query_fails.
Qed.

(** [stat] fails on the query of the attributes: no report. *)
Lemma X19_failure_prints_nothing_witness :
  out (final (run Sample.getattr_fails ["pq"; "stat"; "/jobs"])) = "".
Proof.
  apply (X19_failure_prints_nothing Sample.getattr_fails
           ["pq"; "stat"; "/jobs"]).
  vm_compute. discriminate.
Defined.
